(** * ServiceNow number-addition client: a shallow embedding of [main.py]

    The development follows the source file top to bottom:

    - [Text]      Python [str] operations the program uses ([strip], [lower],
                  [rstrip], substring test);
    - [Regex]     the backtracking matcher behind [re.findall] for patterns
                  that are sequences of quantified character classes, and
                  the pattern of [process_query];
    - [PyFloat]   [float(str)] and [float(int)] with IEEE-754 binary64
                  rounding (on [spec_float]);
    - [PyVal]     the values [response.json()] can return, the dynamic
                  operations applied to them, and the exception classes;
    - [Eff]       a trace-and-exception monad for [try]/[except] and the
                  program's observable events (log records, HTTP requests);
    - the program: [ServiceNowClient], [add_numbers], [process_query] and
                  the form of [main];
    - the vocabulary of the statements, the lemmas and the theorems.

    Scope of the model.  A text is a sequence of the code points 0..255
    (Latin-1), where the decimal digits are 0-9.  The network and the
    [requests] library are the environment: [requests.post] answers a
    request with a response or raises, and a response carries the outcome
    of its [json()] method ([requests] without [simplejson], whose
    [JSONDecodeError] derives from [json.JSONDecodeError]).  Exceptions
    are instances of [Exception]; the texts of the exceptions Python
    itself raises are those of CPython 3.11.  The text Python prints for
    a float or a container is a parameter of the program. *)

From Stdlib Require Import Bool Arith NArith ZArith Lia List.
From Stdlib Require Import Ascii String DecimalString.
From Stdlib Require Import Floats.SpecFloat.
Import ListNotations.

Local Open Scope string_scope.

(* ===================================================================== *)
(** * Text: Python [str] primitives                                       *)
(* ===================================================================== *)

Module Text.

(** A text is a sequence of code points; [ascii] gives the code points
    0..255, read as Latin-1. *)
Definition code (c : ascii) : N := N_of_ascii c.

Definition in_range (lo hi : N) (c : ascii) : bool :=
  ((lo <=? code c) && (code c <=? hi))%N.

(** [\d] and [str.isdecimal]: the category Nd, which below 256 is 0-9. *)
Definition is_decimal (c : ascii) : bool := in_range 48 57 c.

(** [str.isspace], the set removed by [str.strip()]. *)
Definition is_space (c : ascii) : bool :=
  in_range 9 13 c || in_range 28 32 c || in_range 133 133 c
  || in_range 160 160 c.

(** [str.lower] on one code point: A-Z and the Latin-1 capitals. *)
Definition lower_char (c : ascii) : ascii :=
  if in_range 65 90 c || in_range 192 214 c || in_range 216 222 c
  then ascii_of_N (code c + 32)
  else c.

Fixpoint lower (s : string) : string :=
  match s with
  | EmptyString => EmptyString
  | String c s' => String (lower_char c) (lower s')
  end.

Definition is_empty (s : string) : bool :=
  match s with EmptyString => true | String _ _ => false end.

Fixpoint lstrip_by (p : ascii -> bool) (s : string) : string :=
  match s with
  | EmptyString => EmptyString
  | String c s' => if p c then lstrip_by p s' else s
  end.

Fixpoint rstrip_by (p : ascii -> bool) (s : string) : string :=
  match s with
  | EmptyString => EmptyString
  | String c s' =>
      let r := rstrip_by p s' in
      if is_empty r && p c then EmptyString else String c r
  end.

(** [s.strip()] *)
Definition strip (s : string) : string :=
  rstrip_by is_space (lstrip_by is_space s).

(** [s.rstrip('/')] *)
Definition rstrip_slash (s : string) : string :=
  rstrip_by (Ascii.eqb "/"%char) s.

(** [s.startswith(pre)] *)
Fixpoint starts_with (pre s : string) : bool :=
  match pre, s with
  | EmptyString, _ => true
  | String a pre', String b s' => (a =? b)%char && starts_with pre' s'
  | String _ _, EmptyString => false
  end.

(** [needle in hay] for two [str]s. *)
Fixpoint contains (needle hay : string) : bool :=
  starts_with needle hay
  || match hay with
     | EmptyString => false
     | String _ hay' => contains needle hay'
     end.

Fixpoint all_chars (p : ascii -> bool) (s : string) : bool :=
  match s with
  | EmptyString => true
  | String c s' => p c && all_chars p s'
  end.

Fixpoint ends_with_char (p : ascii -> bool) (s : string) : bool :=
  match s with
  | EmptyString => false
  | String c EmptyString => p c
  | String _ s' => ends_with_char p s'
  end.

End Text.

(* ===================================================================== *)
(** * Regex: the matcher behind [re.findall]                              *)
(* ===================================================================== *)

Module Regex.

(** Greedy quantifiers of the [re] syntax. *)
Inductive quant : Type :=
  | Once   (* x  *)
  | Opt    (* x? *)
  | Star   (* x* *)
  | Plus.  (* x+ *)

(** A quantified character class; a pattern is a sequence of them. *)
Record atom : Type := Atom { cls : ascii -> bool; rep : quant }.

Definition pattern := list atom.

Definition result := option (string * string).

Definition consume (c : ascii) (r : result) : result :=
  match r with
  | Some (m, rest) => Some (String c m, rest)
  | None => None
  end.

Definition or_else (r : result) (alt : result) : result :=
  match r with
  | Some _ => r
  | None => alt
  end.

(** Greedy repetition with backtracking: take as many characters of the
    class as there are, then give them back one at a time until the
    continuation [k] (the rest of the pattern) succeeds. *)
Fixpoint star (p : ascii -> bool) (k : string -> result) (s : string)
  : result :=
  match s with
  | String c s' =>
      if p c then or_else (consume c (star p k s')) (k s) else k s
  | EmptyString => k s
  end.

(** [match_here pat s]: the match of [pat] anchored at the start of [s],
    as (matched text, rest of [s]); [re]'s priority order. *)
Fixpoint match_here (pat : pattern) : string -> result :=
  match pat with
  | [] => fun s => Some (EmptyString, s)
  | a :: pat' => fun s =>
      match rep a with
      | Once =>
          match s with
          | String c s' =>
              if cls a c then consume c (match_here pat' s') else None
          | EmptyString => None
          end
      | Opt =>
          match s with
          | String c s' =>
              if cls a c
              then or_else (consume c (match_here pat' s')) (match_here pat' s)
              else match_here pat' s
          | EmptyString => match_here pat' s
          end
      | Star => star (cls a) (match_here pat') s
      | Plus =>
          match s with
          | String c s' =>
              if cls a c then consume c (star (cls a) (match_here pat') s')
              else None
          | EmptyString => None
          end
      end
  end.

(** The scan of [re.findall]: try the pattern at the current position; on
    a match record it and resume after it; otherwise move one character
    on.  An empty match is recorded and the scan moves one character on
    (the pattern of this program never matches the empty text, see
    [number_match_nonempty]).  [fuel] bounds the number of positions
    tried. *)
Fixpoint findall_from (fuel : nat) (pat : pattern) (s : string)
  : list string :=
  match fuel with
  | O => []
  | S fuel' =>
      match match_here pat s with
      | Some (String c m, rest) =>
          String c m :: findall_from fuel' pat rest
      | Some (EmptyString, _) =>
          EmptyString ::
          match s with
          | String _ s' => findall_from fuel' pat s'
          | EmptyString => []
          end
      | None =>
          match s with
          | String _ s' => findall_from fuel' pat s'
          | EmptyString => []
          end
      end
  end.

(** [re.findall(pat, s)] *)
Definition findall (pat : pattern) (s : string) : list string :=
  findall_from (S (String.length s)) pat s.

Definition one_of (cs : string) (c : ascii) : bool :=
  Text.contains (String c EmptyString) cs.

(** [r"[-+]?\d*\.?\d+"] *)
Definition number_pattern : pattern :=
  [ Atom (one_of "-+") Opt;
    Atom Text.is_decimal Star;
    Atom (one_of ".") Opt;
    Atom Text.is_decimal Plus ].

End Regex.

(* ===================================================================== *)
(** * PyFloat: [float(...)] with binary64 rounding                        *)
(* ===================================================================== *)

Module PyFloat.

Definition prec : Z := 53.
Definition emax : Z := 1024.

(** [(-1)^neg * m * 10^e] rounded to the nearest binary64, ties to even;
    [m] is a natural number. *)
Definition scale10 (neg : bool) (m : Z) (e : Z) : spec_float :=
  match m with
  | Zpos p =>
      if (0 <=? e)%Z
      then binary_normalize prec emax
             (if neg then - (Zpos p * 10 ^ e) else Zpos p * 10 ^ e) 0 false
      else
        let '(q, e', l) :=
          SFdiv_core_binary prec emax (Zpos p) 0 (10 ^ (- e)) 0 in
        binary_round_aux prec emax neg q e' l
  | _ => S754_zero neg
  end.

(** [float(z)] for a Python [int]: [None] stands for the [OverflowError]
    raised when [z] rounds beyond the largest finite binary64. *)
Definition of_int (z : Z) : option spec_float :=
  match binary_normalize prec emax z 0 false with
  | S754_infinity _ => None
  | f => Some f
  end.

(** The binary64 nearest to an integer. *)
Definition nearest (z : Z) : spec_float :=
  binary_normalize prec emax z 0 false.

(** [float(b)] for a Python [bool]. *)
Definition of_bool (b : bool) : spec_float :=
  if b then binary_normalize prec emax 1 0 false else S754_zero false.

(** ** [float(str)] *)

Definition is_digit (c : ascii) : bool := Text.in_range 48 57 c.

(** The whitespace [float] strips: every non-ASCII space is first turned
    into a blank, then the C-locale spaces are removed at both ends. *)
Definition is_float_space (c : ascii) : bool :=
  Text.in_range 9 13 c || Text.in_range 32 32 c
  || Text.in_range 133 133 c || Text.in_range 160 160 c.

Definition ascii_lower_char (c : ascii) : ascii :=
  if Text.in_range 65 90 c then ascii_of_N (Text.code c + 32) else c.

Fixpoint ascii_lower (s : string) : string :=
  match s with
  | EmptyString => EmptyString
  | String c s' => String (ascii_lower_char c) (ascii_lower s')
  end.

Definition digit_val (c : ascii) : Z := Z.of_N (Text.code c) - 48.

Fixpoint digits_value (acc : Z) (s : string) : Z :=
  match s with
  | EmptyString => acc
  | String c s' => digits_value (10 * acc + digit_val c) s'
  end.

(** Longest prefix of digits, and what follows it. *)
Fixpoint span_digits (s : string) : string * string :=
  match s with
  | String c s' =>
      if is_digit c
      then let '(ds, rest) := span_digits s' in (String c ds, rest)
      else (EmptyString, s)
  | EmptyString => (EmptyString, EmptyString)
  end.

Definition take_sign (s : string) : bool * string :=
  match s with
  | String c s' =>
      if (c =? "-")%char then (true, s')
      else if (c =? "+")%char then (false, s')
      else (false, s)
  | EmptyString => (false, s)
  end.

(** [inf], [infinity] and [nan], in any letter case. *)
Definition special (neg : bool) (s : string) : option spec_float :=
  let l := ascii_lower s in
  if (l =? "inf") || (l =? "infinity") then Some (S754_infinity neg)
  else if l =? "nan" then Some S754_nan
  else None.

(** The exponent part [e[+-]digits]; when the digits are missing the
    [e] is not part of the number. *)
Definition take_exponent (s : string) : Z * string :=
  match s with
  | String c t =>
      if (c =? "e")%char || (c =? "E")%char then
        let '(neg, t1) := take_sign t in
        let '(ds, t2) := span_digits t1 in
        if Text.is_empty ds then (0%Z, s)
        else ((if neg then - digits_value 0 ds else digits_value 0 ds)%Z, t2)
      else (0%Z, s)
  | EmptyString => (0%Z, s)
  end.

(** The fraction after the integer digits: [.] and more digits, if the
    point is there. *)
Definition take_fraction (s : string) : string * string :=
  match s with
  | String c t => if (c =? ".")%char then span_digits t else (EmptyString, s)
  | EmptyString => (EmptyString, s)
  end.

(** [(digits [. [digits]] | . digits) [exponent]], to the end of the
    text. *)
Definition parse_number (neg : bool) (s : string) : option spec_float :=
  let '(ip, s2) := span_digits s in
  let '(fp, s3) := take_fraction s2 in
  if Text.is_empty ip && Text.is_empty fp then None
  else
    let '(ex, s4) := take_exponent s3 in
    if Text.is_empty s4
    then Some (scale10 neg (digits_value 0 (ip ++ fp))
                       (ex - Z.of_nat (String.length fp)))
    else None.

(** A literal without underscores: a sign, then a special or a number. *)
Definition parse_plain (s : string) : option spec_float :=
  let '(neg, s1) := take_sign s in
  match special neg s1 with
  | Some f => Some f
  | None => parse_number neg s1
  end.

(** Underscores may only stand between two digits; they are removed
    before the literal is read. *)
Fixpoint strip_underscores (prev : ascii) (s : string) : option string :=
  match s with
  | EmptyString => if (prev =? "_")%char then None else Some EmptyString
  | String c s' =>
      if (c =? "_")%char then
        if is_digit prev then strip_underscores c s' else None
      else if (prev =? "_")%char && negb (is_digit c) then None
      else option_map (String c) (strip_underscores c s')
  end.

(** [float(s)]; [None] stands for [ValueError]. *)
Definition of_string (s : string) : option spec_float :=
  let t := Text.rstrip_by is_float_space (Text.lstrip_by is_float_space s) in
  if Text.contains "_" t then
    match strip_underscores Ascii.zero t with
    | Some u => parse_plain u
    | None => None
    end
  else parse_plain t.

End PyFloat.

(* ===================================================================== *)
(** * PyVal: values of [response.json()] and exceptions                   *)
(* ===================================================================== *)

Module PyVal.

(** What [json.loads] builds: [None], [bool], [int], [float], [str],
    [list] and [dict] with [str] keys (in insertion order). *)
#[warnings="-register-all"]
Inductive pyval : Type :=
  | PNone
  | PBool (b : bool)
  | PInt (z : Z)
  | PFloat (f : spec_float)
  | PStr (s : string)
  | PList (l : list pyval)
  | PDict (d : list (string * pyval)).

(** The exception classes that occur, with their method resolution
    order; [requests.exceptions.JSONDecodeError] derives from both
    [requests.RequestException] and [json.JSONDecodeError]. *)
Inductive exn_class : Type :=
  | Exception
  | TypeError
  | AttributeError
  | KeyError
  | IndexError
  | OverflowError
  | ValueError
  | JSONDecodeError
  | RequestException
  | Timeout
  | ConnectionError
  | RequestsJSONDecodeError.

Definition mro (c : exn_class) : list exn_class :=
  match c with
  | Exception => [Exception]
  | TypeError => [TypeError; Exception]
  | AttributeError => [AttributeError; Exception]
  | KeyError => [KeyError; Exception]
  | IndexError => [IndexError; Exception]
  | OverflowError => [OverflowError; Exception]
  | ValueError => [ValueError; Exception]
  | JSONDecodeError => [JSONDecodeError; ValueError; Exception]
  | RequestException => [RequestException; Exception]
  | Timeout => [Timeout; RequestException; Exception]
  | ConnectionError => [ConnectionError; RequestException; Exception]
  | RequestsJSONDecodeError =>
      [RequestsJSONDecodeError; RequestException;
       JSONDecodeError; ValueError; Exception]
  end.

Definition class_eqb (a b : exn_class) : bool :=
  match a, b with
  | Exception, Exception | TypeError, TypeError
  | AttributeError, AttributeError | KeyError, KeyError
  | IndexError, IndexError | OverflowError, OverflowError
  | ValueError, ValueError | JSONDecodeError, JSONDecodeError
  | RequestException, RequestException | Timeout, Timeout
  | ConnectionError, ConnectionError
  | RequestsJSONDecodeError, RequestsJSONDecodeError => true
  | _, _ => false
  end.

(** [issubclass(c, base)] *)
Definition subclass (c base : exn_class) : bool :=
  existsb (class_eqb base) (mro c).

(** An exception instance: its class and [str(e)]. *)
Record exn : Type := Exn { exn_class_of : exn_class; exn_str : string }.

(** The result of an operation that may raise. *)
Inductive outcome (A : Type) : Type :=
  | Ok (a : A)
  | Raise (e : exn).
Arguments Ok {A} a.
Arguments Raise {A} e.

Definition type_name (v : pyval) : string :=
  match v with
  | PNone => "NoneType"
  | PBool _ => "bool"
  | PInt _ => "int"
  | PFloat _ => "float"
  | PStr _ => "str"
  | PList _ => "list"
  | PDict _ => "dict"
  end.

Fixpoint lookup (key : string) (d : list (string * pyval)) : option pyval :=
  match d with
  | [] => None
  | (k, v) :: d' => if (k =? key)%string then Some v else lookup key d'
  end.

Definition is_str (key : string) (v : pyval) : bool :=
  match v with
  | PStr s => (s =? key)%string
  | _ => false
  end.

(** [key in v] for a [str] key. *)
Definition py_contains (key : string) (v : pyval) : outcome bool :=
  match v with
  | PDict d =>
      Ok (match lookup key d with Some _ => true | None => false end)
  | PList l => Ok (existsb (is_str key) l)
  | PStr s => Ok (Text.contains key s)
  | _ =>
      Raise (Exn TypeError
               ("argument of type '" ++ type_name v ++ "' is not iterable"))
  end.

(** [v[key]] for a [str] key. *)
Definition py_getitem (v : pyval) (key : string) : outcome pyval :=
  match v with
  | PDict d =>
      match lookup key d with
      | Some x => Ok x
      | None => Raise (Exn KeyError ("'" ++ key ++ "'"))
      end
  | PList _ =>
      Raise (Exn TypeError "list indices must be integers or slices, not str")
  | PStr _ =>
      Raise (Exn TypeError "string indices must be integers, not 'str'")
  | _ =>
      Raise (Exn TypeError
               ("'" ++ type_name v ++ "' object is not subscriptable"))
  end.

(** [v.get(key, default)] *)
Definition py_get (v : pyval) (key : string) (default : pyval)
  : outcome pyval :=
  match v with
  | PDict d =>
      Ok (match lookup key d with Some x => x | None => default end)
  | _ =>
      Raise (Exn AttributeError
               ("'" ++ type_name v ++ "' object has no attribute 'get'"))
  end.

(** [isinstance(v, dict)] *)
Definition is_dict (v : pyval) : bool :=
  match v with PDict _ => true | _ => false end.

(** [isinstance(v, (int, float))]; [bool] is a subclass of [int]. *)
Definition is_int_or_float (v : pyval) : bool :=
  match v with
  | PInt _ | PFloat _ | PBool _ => true
  | _ => false
  end.

(** [float(v)] for a value that is not a [str]. *)
Definition py_float (v : pyval) : outcome spec_float :=
  match v with
  | PFloat f => Ok f
  | PBool b => Ok (PyFloat.of_bool b)
  | PInt z =>
      match PyFloat.of_int z with
      | Some f => Ok f
      | None => Raise (Exn OverflowError "int too large to convert to float")
      end
  | _ =>
      Raise (Exn TypeError
               ("float() argument must be a string or a real number, not '"
                ++ type_name v ++ "'"))
  end.

End PyVal.
Export PyVal.

(* ===================================================================== *)
(** * Eff: observable events, exceptions and [try]/[except]               *)
(* ===================================================================== *)

(** [requests.post(url, json=..., auth=..., headers=..., timeout=...)] *)
Record request : Type := Request {
  req_url : string;
  req_json : pyval;
  req_auth : option string * option string;
  req_headers : list (string * string);
  req_timeout : Z
}.

(** The [requests.Response] attributes the program reads; [resp_json] is
    what the call [response.json()] does. *)
Record response : Type := Response {
  status_code : Z;
  resp_headers : list (string * string);
  resp_text : string;
  resp_json : outcome pyval
}.

Inductive level : Type := INFO | WARNING | ERROR.

(** One constructor per logging call of the source, with the values it
    formats. *)
Inductive log_record : Type :=
  | LogCredentialsNotConfigured
  | LogMakingRequest (url : string)
  | LogPayload (payload : pyval)
  | LogResponseStatus (code : Z)
  | LogResponseHeaders (hs : list (string * string))
  | LogRawResponse (text : string)
  | LogParsedResponse (data : pyval)
  | LogJsonFailure (err : string)
  | LogExtracted (v : pyval)
  | LogNotANumber (v : pyval)
  | LogInvalidNested (v : pyval)
  | LogMissingResult (data : pyval)
  | LogApiError (msg : string)
  | LogRequestFailed (err : string)
  | LogUnexpected (err : string)
  | LogProcessingError (err : string).

Inductive event : Type :=
  | EvLog (lvl : level) (r : log_record)
  | EvPost (req : request).

Module Eff.

(** A computation extends the trace of events and returns or raises. *)
Definition eff (A : Type) : Type := list event -> outcome A * list event.

Definition ret {A} (a : A) : eff A := fun tr => (Ok a, tr).

Definition bind {A B} (m : eff A) (k : A -> eff B) : eff B :=
  fun tr =>
    match m tr with
    | (Ok a, tr') => k a tr'
    | (Raise e, tr') => (Raise e, tr')
    end.

Definition emit (ev : event) : eff unit := fun tr => (Ok tt, (tr ++ [ev])%list).

Definition lift {A} (o : outcome A) : eff A := fun tr => (o, tr).

Definition log (lvl : level) (r : log_record) : eff unit :=
  emit (EvLog lvl r).

(** The first [except] clause whose class the exception is an instance
    of. *)
Fixpoint select {A} (e : exn) (hs : list (exn_class * (exn -> eff A)))
  : option (exn -> eff A) :=
  match hs with
  | [] => None
  | (c, h) :: hs' =>
      if subclass (exn_class_of e) c then Some h else select e hs'
  end.

(** [try: body  except C1 as e: h1  except C2 as e: h2 ...] *)
Definition try_except {A} (body : eff A)
  (hs : list (exn_class * (exn -> eff A))) : eff A :=
  fun tr =>
    match body tr with
    | (Ok a, tr') => (Ok a, tr')
    | (Raise e, tr') =>
        match select e hs with
        | Some h => h e tr'
        | None => (Raise e, tr')
        end
    end.

(** [[f(x) for x in xs]] *)
Fixpoint map_eff {A B} (f : A -> eff B) (xs : list A) : eff (list B) :=
  match xs with
  | [] => ret []
  | x :: xs' =>
      bind (f x) (fun y => bind (map_eff f xs') (fun ys => ret (y :: ys)))
  end.

End Eff.
Import Eff.

Declare Scope eff_scope.
Delimit Scope eff_scope with eff.
Notation "x <- m ;; k" := (bind m (fun x => k))
  (at level 61, m at next level, right associativity) : eff_scope.
Notation "m ;; k" := (bind m (fun _ => k))
  (at level 61, right associativity) : eff_scope.

(* ===================================================================== *)
(** * The program                                                         *)
(* ===================================================================== *)

Local Open Scope eff_scope.

(** [class AddNumbersResponse(BaseModel)] *)
Record AddNumbersResponse : Type := mkResponse {
  success : bool;
  message : string;
  result : option spec_float
}.

(** [class ServiceNowClient]: the three credential attributes.
    [os.getenv] without a default, and an untouched text input, give
    [None]. *)
Record ServiceNowClient : Type := mkClient {
  instance_url : string;
  username : option string;
  password : option string
}.

(** Truth value of a [str], and of an [Optional[str]]. *)
Definition truthy (s : string) : bool := negb (Text.is_empty s).

Definition truthy_opt (o : option string) : bool :=
  match o with
  | Some s => truthy s
  | None => false
  end.

(** [all([self.instance_url, self.username, self.password])] *)
Definition configured (self : ServiceNowClient) : bool :=
  forallb (fun b : bool => b)
    [truthy (instance_url self); truthy_opt (username self);
     truthy_opt (password self)].

(** [ServiceNowClient.__init__], reading the process environment. *)
Definition ServiceNowClient_init (getenv : string -> option string)
  : eff ServiceNowClient :=
  let self :=
    mkClient
      (Text.rstrip_slash
         (match getenv "SERVICENOW_INSTANCE_URL" with
          | Some v => v
          | None => ""
          end))
      (getenv "SERVICENOW_USERNAME")
      (getenv "SERVICENOW_PASSWORD") in
  if negb (configured self)
  then log WARNING LogCredentialsNotConfigured ;; ret self
  else ret self.

(** [ServiceNowClient.get_headers] *)
Definition get_headers : list (string * string) :=
  [("Content-Type", "application/json"); ("Accept", "application/json")].

Definition api_path : string := "/api/1756572/addition_of_two_numbers/add".

(** [nums[i]] *)
Definition py_index {A} (l : list A) (i : nat) : outcome A :=
  match nth_error l i with
  | Some x => Ok x
  | None => Raise (Exn IndexError "list index out of range")
  end.

Section Program.

(** The surroundings of the program: the text Python prints for a
    [float] and for the other non-[str] values, and the network behind
    [requests.post], which answers a request with a response or raises. *)
Variable float_repr : spec_float -> string.
Variable py_repr : pyval -> string.
Variable requests_post : request -> outcome response.

(** [str(v)], as the f-strings apply it. *)
Definition py_str (v : pyval) : string :=
  match v with
  | PStr s => s
  | PFloat f => float_repr f
  | _ => py_repr v
  end.

Definition str_result (r : option spec_float) : string :=
  match r with
  | Some f => float_repr f
  | None => "None"
  end.

(** [float(num)] for a [str] *)
Definition py_float_of_str (s : string) : eff spec_float :=
  match PyFloat.of_string s with
  | Some f => ret f
  | None =>
      lift (Raise (Exn ValueError
                     ("could not convert string to float: "
                      ++ py_repr (PStr s))))
  end.

(** [requests.post(...)]: the request goes out, then the call returns or
    raises. *)
Definition post (req : request) : eff response :=
  emit (EvPost req) ;; lift (requests_post req).

(** The [if response.status_code == 200] branch up to its last
    statement: [Some r] when one of the nested tests returns [r], [None]
    when control falls through to the final [return]. *)
Definition unwrap_result (response_data : pyval)
  : eff (option AddNumbersResponse) :=
  has_outer <- lift (py_contains "result" response_data) ;;
  if has_outer : bool then
    result_dict <- lift (py_getitem response_data "result") ;;
    nested <- (if is_dict result_dict
               then lift (py_contains "result" result_dict)
               else ret false) ;;
    if nested : bool then
      result_value <- lift (py_getitem result_dict "result") ;;
      log INFO (LogExtracted result_value) ;;
      if is_int_or_float result_value then
        f <- lift (py_float result_value) ;;
        ret (Some (mkResponse true "Addition successful" (Some f)))
      else
        (log ERROR (LogNotANumber result_value) ;; ret None)
    else
      (log ERROR (LogInvalidNested result_dict) ;; ret None)
  else
    (log ERROR (LogMissingResult response_data) ;; ret None).

(** The body of the [try] after [requests.post] has returned: the
    response is logged, its JSON is read, and the status decides. *)
Definition read_response (response : response) : eff AddNumbersResponse :=
  log INFO (LogResponseStatus (status_code response)) ;;
  log INFO (LogResponseHeaders (resp_headers response)) ;;
  log INFO (LogRawResponse (resp_text response)) ;;
  parsed <-
    try_except
      (response_data <- lift (resp_json response) ;;
       log INFO (LogParsedResponse response_data) ;;
       ret (inr response_data))
      [(JSONDecodeError, fun e =>
          log ERROR (LogJsonFailure (exn_str e)) ;;
          ret (inl (mkResponse false
                      "Invalid JSON response from server" None)))] ;;
  match parsed with
  | inl early => ret early
  | inr response_data =>
      if (status_code response =? 200)%Z then
        early <- unwrap_result response_data ;;
        match early with
        | Some r => ret r
        | None =>
            ret (mkResponse false "Invalid response format from API" None)
        end
      else
        err <- lift (py_get response_data "error" (PDict [])) ;;
        error_msg <- lift (py_get err "message" (PStr "Unknown error")) ;;
        log ERROR (LogApiError (py_str error_msg)) ;;
        ret (mkResponse false ("API Error: " ++ py_str error_msg) None)
  end.

(** The two [except] clauses that close the [try] of [add_numbers]. *)
Definition add_handlers
  : list (exn_class * (exn -> eff AddNumbersResponse)) :=
  [(RequestException, fun e =>
      log ERROR (LogRequestFailed (exn_str e)) ;;
      ret (mkResponse false ("Request failed: " ++ exn_str e) None));
   (Exception, fun e =>
      log ERROR (LogUnexpected (exn_str e)) ;;
      ret (mkResponse false ("Unexpected error: " ++ exn_str e) None))].

(** [ServiceNowClient.add_numbers] *)
Definition add_numbers (self : ServiceNowClient) (num1 num2 : spec_float)
  : eff AddNumbersResponse :=
  if negb (configured self) then
    ret (mkResponse false "ServiceNow credentials not configured" None)
  else
    let api_url := instance_url self ++ api_path in
    let payload := PDict [("num1", PFloat num1); ("num2", PFloat num2)] in
    try_except
      (log INFO (LogMakingRequest api_url) ;;
       log INFO (LogPayload payload) ;;
       response <- post (Request api_url payload
                           (username self, password self)
                           get_headers 30) ;;
       read_response response)
      add_handlers.

Definition msg_invalid_number : string :=
  "Error: Found invalid number format in the query".
Definition msg_no_numbers : string :=
  "Error: No numbers found in the query. Please provide two numbers.".
Definition msg_one_number : string :=
  "Error: Only one number found. Please provide exactly two numbers.".
Definition msg_too_many : string :=
  "Error: More than two numbers found. Please provide exactly two numbers.".
Definition msg_unexpected : string :=
  "Error: An unexpected error occurred. Please try again with a valid query.".

(** [process_query] *)
Definition process_query (query : string) (client : ServiceNowClient)
  : eff string :=
  try_except
    (let query := Text.lower (Text.strip query) in
     let nums := Regex.findall Regex.number_pattern query in
     converted <-
       try_except
         (nums <- map_eff py_float_of_str nums ;; ret (inr nums))
         [(ValueError, fun _ => ret (inl msg_invalid_number))] ;;
     match converted with
     | inl msg => ret msg
     | inr nums =>
         if (List.length nums =? 0)%nat then ret msg_no_numbers
         else if (List.length nums =? 1)%nat then ret msg_one_number
         else if (2 <? List.length nums)%nat then ret msg_too_many
         else
           num1 <- lift (py_index nums 0) ;;
           num2 <- lift (py_index nums 1) ;;
           r <- add_numbers client num1 num2 ;;
           if success r
           then ret ("Result: " ++ str_result (result r))
           else ret ("Error: " ++ message r)
     end)
    [(Exception, fun e =>
        log ERROR (LogProcessingError (exn_str e)) ;;
        ret msg_unexpected)].

(** The sidebar of [main]: each credential the form shows is written
    back to the client when it differs from the stored one. *)
Definition opt_eqb (a b : option string) : bool :=
  match a, b with
  | Some x, Some y => (x =? y)%string
  | None, None => true
  | _, _ => false
  end.

Definition update_credentials (client : ServiceNowClient)
  (url : string) (user pass : option string) : ServiceNowClient :=
  let client :=
    if negb (url =? instance_url client)%string
    then mkClient url (username client) (password client) else client in
  let client :=
    if negb (opt_eqb user (username client))
    then mkClient (instance_url client) user (password client) else client in
  if negb (opt_eqb pass (password client))
  then mkClient (instance_url client) (username client) pass else client.

(** One run of [main] with the form filled in: the credentials are
    written back, and when the button is pressed with a non-empty query
    the query is processed and its text displayed. *)
Definition main (client : ServiceNowClient)
  (url : string) (user pass : option string)
  (user_query : string) (pressed : bool)
  : eff (ServiceNowClient * option string) :=
  let client := update_credentials client url user pass in
  if pressed && truthy user_query then
    shown <- process_query user_query client ;;
    ret (client, Some shown)
  else ret (client, None).

End Program.

(** ** Instances for the examples *)

(** Python's text for a float whose value is a whole number below
    [10^16] (of other finite values the whole part is printed). *)
Definition sample_float_repr (f : spec_float) : string :=
  match f with
  | S754_zero s => if s then "-0.0" else "0.0"
  | S754_infinity s => if s then "-inf" else "inf"
  | S754_nan => "nan"
  | S754_finite s m e =>
      let n := (if 0 <=? e then Zpos m * 2 ^ e else Zpos m / 2 ^ (- e))%Z in
      (if s then "-" else "")
      ++ NilZero.string_of_int (Z.to_int n) ++ ".0"
  end.

(** Python's text for [None], the booleans and the integers. *)
Definition sample_py_repr (v : pyval) : string :=
  match v with
  | PNone => "None"
  | PBool b => if b then "True" else "False"
  | PInt z => NilZero.string_of_int (Z.to_int z)
  | _ => "..."
  end.

Definition sample_client : ServiceNowClient :=
  mkClient "https://dev341352.service-now.com" (Some "admin") (Some "secret").

(** A network that answers every request with the same status and
    parsed JSON body. *)
Definition answering (status : Z) (body : pyval)
  : request -> outcome response :=
  fun _ => Ok (Response status [] "" (Ok body)).

(** A network that answers with the request's URL among the headers and
    as raw text. *)
Definition echoing (status : Z) (body : pyval)
  : request -> outcome response :=
  fun req => Ok (Response status [("X-Request-URL", req_url req)]
                   (req_url req) (Ok body)).

(** The environment with the three variables set. *)
Definition sample_env (url user pass : string) : string -> option string :=
  fun name =>
    if (name =? "SERVICENOW_INSTANCE_URL")%string then Some url
    else if (name =? "SERVICENOW_USERNAME")%string then Some user
    else if (name =? "SERVICENOW_PASSWORD")%string then Some pass
    else None.

(** A network on which every request fails with the same exception. *)
Definition failing (e : exn) : request -> outcome response :=
  fun _ => Raise e.

(* ===================================================================== *)
(** * The vocabulary of the statements                                    *)
(* ===================================================================== *)

(** ** Patterns and their matches *)

(** What one quantified class accepts. *)
Definition atom_accepts (a : Regex.atom) (w : string) : bool :=
  Text.all_chars (Regex.cls a) w
  && match Regex.rep a with
     | Regex.Once => (String.length w =? 1)%nat
     | Regex.Opt => (String.length w <=? 1)%nat
     | Regex.Star => true
     | Regex.Plus => negb (Text.is_empty w)
     end.

(** The language of a pattern: one accepted piece per atom. *)
Inductive in_pattern : Regex.pattern -> string -> Prop :=
  | in_pattern_nil : in_pattern [] ""
  | in_pattern_cons a pat w m :
      atom_accepts a w = true -> in_pattern pat m ->
      in_pattern (a :: pat) (w ++ m).

(** A continuation is sound for a language [L] when whatever it matches
    is a prefix of its input and belongs to [L]. *)
Definition sound_for (L : string -> Prop) (k : string -> Regex.result)
  : Prop :=
  forall s m r, k s = Some (m, r) -> s = m ++ r /\ L m.

(** Where the matches of a scan lie: [scattered ms s] says the texts
    [ms] occur in [s] one after the other, without overlap. *)
Inductive scattered : list string -> string -> Prop :=
  | scattered_nil s : scattered [] s
  | scattered_cons pre m ms rest :
      scattered ms rest -> scattered (m :: ms) (pre ++ m ++ rest).

(** The texts of the number pattern: an optional sign, digits, an
    optional point, and at least one more digit. *)
Inductive number_text (m : string) : Prop :=
  | NumberText (sg ip dot fp : string) :
      m = sg ++ ip ++ dot ++ fp ->
      sg = "" \/ sg = "-" \/ sg = "+" ->
      Text.all_chars PyFloat.is_digit ip = true ->
      dot = "" \/ dot = "." ->
      Text.all_chars PyFloat.is_digit fp = true ->
      fp <> "" ->
      number_text m.

(** The code points a number text is made of. *)
Definition number_char (c : ascii) : bool :=
  PyFloat.is_digit c || (c =? "-")%char || (c =? "+")%char || (c =? ".")%char.

(** A class that does not tell a code point from its lower-case form. *)
Definition lower_blind (p : ascii -> bool) : Prop :=
  forall c, p (Text.lower_char c) = p c.

(** A text that is empty or starts outside a class. *)
Definition starts_outside (p : ascii -> bool) (ws : string) : Prop :=
  match ws with
  | String c _ => p c = false
  | EmptyString => True
  end.

(** A match of a text, seen in the lower-cased text. *)
Definition lower_pair (x : Regex.result) : Regex.result :=
  option_map (fun mr => (Text.lower (fst mr), Text.lower (snd mr))) x.

(** A match of a text, seen in the text followed by [ws]. *)
Definition keep_rest (ws : string) (x : Regex.result) : Regex.result :=
  option_map (fun mr => (fst mr, snd mr ++ ws)) x.

(** ** Computations *)

(** [ensures m Q]: whenever [m] returns, the value satisfies [Q]. *)
Definition ensures {A} (m : eff A) (Q : A -> Prop) : Prop :=
  forall tr a tr', m tr = (Ok a, tr') -> Q a.

(** [total m]: [m] returns, whatever the trace so far. *)
Definition total {A} (m : eff A) : Prop :=
  forall tr, exists a tr', m tr = (Ok a, tr').

(** [extends m]: [m] only adds events to the trace. *)
Definition extends {A} (m : eff A) : Prop :=
  forall tr, exists more, snd (m tr) = (tr ++ more)%list.

(** [uniform m]: what [m] returns and the events it adds do not depend
    on the trace it starts from. *)
Definition uniform {A} (m : eff A) : Prop :=
  forall tr, m tr = (fst (m []), (tr ++ snd (m []))%list).

(** The requests of a trace, in the order they were sent. *)
Fixpoint requests_in (tr : list event) : list request :=
  match tr with
  | [] => []
  | EvPost req :: tr' => req :: requests_in tr'
  | EvLog _ _ :: tr' => requests_in tr'
  end.

(** The log records of a trace, in the order they were written. *)
Fixpoint logs_in (tr : list event) : list (level * log_record) :=
  match tr with
  | [] => []
  | EvLog lvl r :: tr' => (lvl, r) :: logs_in tr'
  | EvPost _ :: tr' => logs_in tr'
  end.

(** [quiet m]: [m] is uniform and sends no request. *)
Definition quiet {A} (m : eff A) : Prop :=
  uniform m /\ requests_in (snd (m [])) = [].

(** ** Requests and responses *)

(** The request [add_numbers] sends for a client and two operands. *)
Definition add_request (self : ServiceNowClient) (num1 num2 : spec_float)
  : request :=
  Request (instance_url self ++ api_path)
          (PDict [("num1", PFloat num1); ("num2", PFloat num2)])
          (username self, password self)
          get_headers 30.

(** What [add_numbers] does once the network has given its outcome:
    the rest of its [try] statement. *)
Definition after_post (float_repr : spec_float -> string)
  (py_repr : pyval -> string) (o : outcome response)
  : eff AddNumbersResponse :=
  try_except (x <- lift o ;; read_response float_repr py_repr x)
    add_handlers.

(** The messages of [add_numbers], each with the value of [success] it
    comes with. *)
Inductive outcome_message : bool -> string -> Prop :=
  | om_success : outcome_message true "Addition successful"
  | om_unconfigured :
      outcome_message false "ServiceNow credentials not configured"
  | om_invalid_json :
      outcome_message false "Invalid JSON response from server"
  | om_invalid_format :
      outcome_message false "Invalid response format from API"
  | om_api_error x : outcome_message false ("API Error: " ++ x)
  | om_request_failed x : outcome_message false ("Request failed: " ++ x)
  | om_unexpected x : outcome_message false ("Unexpected error: " ++ x).

(** The message of the two outer [except] clauses. *)
Definition failure_message (e : exn) : string :=
  (if subclass (exn_class_of e) RequestException
   then "Request failed: " else "Unexpected error: ") ++ exn_str e.

(** The value under [result.result] of a JSON object, if it is there:
    the body is an object whose [result] member is an object with a
    [result] member. *)
Definition nested_result (body : pyval) : option pyval :=
  match body with
  | PDict d =>
      match lookup "result" d with
      | Some (PDict d') => lookup "result" d'
      | _ => None
      end
  | _ => None
  end.

(** A JSON number and its float64 value: an integer within the range
    of float64, or a float. *)
Definition json_number (v : pyval) : option spec_float :=
  match v with
  | PInt z => PyFloat.of_int z
  | PFloat f => Some f
  | _ => None
  end.

(** The JSON values that are neither numbers nor booleans. *)
Definition not_a_number (v : pyval) : bool :=
  match v with
  | PNone | PStr _ | PList _ | PDict _ => true
  | _ => false
  end.

(** The [error] member of a JSON object as [.get("error", {})] sees it,
    when it is absent or an object. *)
Definition error_object (d : list (string * pyval))
  : option (list (string * pyval)) :=
  match lookup "error" d with
  | None => Some []
  | Some (PDict err) => Some err
  | Some _ => None
  end.

(** [value is present iff succeeded] *)
Definition consistent (r : AddNumbersResponse) : Prop :=
  success r = true <-> result r <> None.

(** No message of [add_numbers] starts with the letter F. *)
Definition not_invalid_number (r : AddNumbersResponse) : Prop :=
  Text.starts_with "F" (message r) = false.

(** The text [process_query] shows for a response. *)
Definition shown (float_repr : spec_float -> string)
  (r : AddNumbersResponse) : string :=
  if success r
  then "Result: " ++ str_result float_repr (result r)
  else "Error: " ++ message r.

(* ===================================================================== *)
(** * Facts about texts                                                   *)
(* ===================================================================== *)

Lemma str_app_nil_r (s : string) : s ++ "" = s.
Proof. induction s as [|c s IH]; simpl; [reflexivity | now rewrite IH]. Qed.

Lemma str_app_assoc (a b c : string) : (a ++ b) ++ c = a ++ (b ++ c).
Proof. induction a as [|x a IH]; simpl; [reflexivity | now rewrite IH]. Qed.

Lemma str_length_app (a b : string) :
  String.length (a ++ b) = String.length a + String.length b.
Proof. induction a as [|x a IH]; simpl; [reflexivity | now rewrite IH]. Qed.

Lemma str_app_empty (a b : string) : a ++ b = "" -> a = "" /\ b = "".
Proof. destruct a; simpl; [auto | discriminate]. Qed.

Lemma all_chars_app (p : ascii -> bool) (a b : string) :
  Text.all_chars p (a ++ b) = Text.all_chars p a && Text.all_chars p b.
Proof.
  induction a as [|x a IH]; simpl; [reflexivity|].
  rewrite IH. now rewrite andb_assoc.
Qed.

Lemma all_chars_weaken (p q : ascii -> bool) (s : string) :
  (forall c, p c = true -> q c = true) ->
  Text.all_chars p s = true -> Text.all_chars q s = true.
Proof.
  intros Hpq. induction s as [|c s IH]; simpl; [reflexivity|].
  intros H. apply andb_true_iff in H as [Hc Hs].
  now rewrite (Hpq _ Hc), IH.
Qed.

Lemma lstrip_by_id (p : ascii -> bool) (c : ascii) (s : string) :
  p c = false -> Text.lstrip_by p (String c s) = String c s.
Proof. intros H. simpl. now rewrite H. Qed.

Lemma rstrip_by_id (p : ascii -> bool) (s : string) :
  Text.ends_with_char (fun c => negb (p c)) s = true ->
  Text.rstrip_by p s = s.
Proof.
  induction s as [|c s IH]; [discriminate|].
  intros H. cbn [Text.rstrip_by].
  destruct s as [|d s].
  - simpl in *. apply negb_true_iff in H. now rewrite H.
  - rewrite IH by exact H. reflexivity.
Qed.

Lemma ends_with_char_app (p : ascii -> bool) (a b : string) :
  Text.ends_with_char p b = true -> Text.ends_with_char p (a ++ b) = true.
Proof.
  intros H. induction a as [|c a IH]; [exact H|].
  simpl. destruct (a ++ b) eqn:E; [|exact IH].
  apply str_app_empty in E as [_ ->]. discriminate.
Qed.

Lemma ends_with_char_all (p : ascii -> bool) (s : string) :
  Text.all_chars p s = true -> s <> "" -> Text.ends_with_char p s = true.
Proof.
  induction s as [|c s IH]; [congruence|].
  simpl. intros H _. apply andb_true_iff in H as [Hc Hs].
  destruct s; [exact Hc|]. apply IH; [exact Hs | discriminate].
Qed.

(* ===================================================================== *)
(** * Facts about the matcher                                             *)
(* ===================================================================== *)

Lemma consume_some (c : ascii) (x : Regex.result) (m r : string) :
  Regex.consume c x = Some (m, r) ->
  exists m', m = String c m' /\ x = Some (m', r).
Proof.
  destruct x as [[m' r']|]; simpl; [|discriminate].
  intros H. injection H as <- <-. now exists m'.
Qed.

Lemma or_else_some (x y : Regex.result) (v : string * string) :
  Regex.or_else x y = Some v -> x = Some v \/ y = Some v.
Proof. destruct x; simpl; auto. Qed.

Lemma star_sound (p : ascii -> bool) (L : string -> Prop)
  (k : string -> Regex.result) :
  sound_for L k ->
  forall s m r, Regex.star p k s = Some (m, r) ->
    s = m ++ r /\
    exists w m', m = w ++ m' /\ Text.all_chars p w = true /\ L m'.
Proof.
  intros Hk. induction s as [|c s IH]; intros m r H.
  - apply Hk in H as [-> HL]. split; [reflexivity|]. now exists "", m.
  - cbn [Regex.star] in H. destruct (p c) eqn:Hc.
    + apply or_else_some in H as [H|H].
      * apply consume_some in H as (m' & -> & H).
        apply IH in H as (-> & w & m'' & -> & Hw & HL).
        split; [reflexivity|]. exists (String c w), m''.
        simpl. now rewrite Hc, Hw.
      * apply Hk in H as [-> HL]. split; [reflexivity|]. now exists "", m.
    + apply Hk in H as [-> HL]. split; [reflexivity|]. now exists "", m.
Qed.

(** Soundness of the matcher: a match is a prefix of the text and is in
    the language of the pattern. *)
Lemma match_here_sound (pat : Regex.pattern) :
  sound_for (in_pattern pat) (Regex.match_here pat).
Proof.
  induction pat as [|a pat IH]; intros s m r H.
  - simpl in H. injection H as <- <-. split; [reflexivity | constructor].
  - cbn [Regex.match_here] in H.
    assert (Hskip : forall s m r, Regex.match_here pat s = Some (m, r) ->
              Regex.rep a = Regex.Opt \/ Regex.rep a = Regex.Star ->
              s = m ++ r /\ in_pattern (a :: pat) m).
    { intros s0 m0 r0 H0 Hq. apply IH in H0 as [-> HL].
      split; [reflexivity|].
      change m0 with ("" ++ m0). constructor; [|exact HL].
      unfold atom_accepts. simpl. now destruct Hq as [-> | ->]. }
    assert (Hone : forall c s m r,
              Regex.cls a c = true ->
              Regex.consume c (Regex.match_here pat s) = Some (m, r) ->
              Regex.rep a = Regex.Opt \/ Regex.rep a = Regex.Once ->
              String c s = m ++ r /\ in_pattern (a :: pat) m).
    { intros c s0 m0 r0 Hc H0 Hq.
      apply consume_some in H0 as (m' & -> & H0).
      apply IH in H0 as [-> HL]. split; [reflexivity|].
      change (String c m') with (String c "" ++ m'). constructor; [|exact HL].
      unfold atom_accepts. simpl. rewrite Hc. now destruct Hq as [-> | ->]. }
    destruct (Regex.rep a) eqn:Hrep; cbv beta iota in H.
    + destruct s as [|c s]; [discriminate|].
      destruct (Regex.cls a c) eqn:Hc; [|discriminate]. eauto.
    + destruct s as [|c s]; [eauto|].
      destruct (Regex.cls a c) eqn:Hc; cbv beta iota in H; [|eauto].
      apply or_else_some in H as [H|H]; eauto.
    + apply (star_sound _ _ _ IH) in H as (-> & w & m' & -> & Hw & HL).
      split; [reflexivity|]. constructor; [|exact HL].
      unfold atom_accepts. now rewrite Hw, Hrep.
    + destruct s as [|c s]; [discriminate|].
      destruct (Regex.cls a c) eqn:Hc; [|discriminate].
      apply consume_some in H as (m0 & -> & H).
      apply (star_sound _ _ _ IH) in H as (-> & w & m' & -> & Hw & HL).
      split; [reflexivity|].
      change (String c (w ++ m')) with (String c w ++ m').
      constructor; [|exact HL].
      unfold atom_accepts. simpl. now rewrite Hc, Hw, Hrep.
Qed.

Lemma scattered_skip (c : ascii) (ms : list string) (s : string) :
  scattered ms s -> scattered ms (String c s).
Proof.
  intros H. destruct H as [s | pre m ms rest H]; [constructor|].
  change (String c (pre ++ m ++ rest)) with (String c pre ++ m ++ rest).
  now constructor.
Qed.

Lemma findall_from_scattered (pat : Regex.pattern) (fuel : nat) :
  forall s, scattered (Regex.findall_from fuel pat s) s.
Proof.
  induction fuel as [|fuel IH]; intros s; [constructor|].
  cbn [Regex.findall_from].
  destruct (Regex.match_here pat s) as [[m r]|] eqn:Hm.
  - apply match_here_sound in Hm as [-> _].
    destruct m as [|c m].
    + destruct r as [|c r]; simpl.
      * apply (scattered_cons "" "" [] ""). constructor.
      * apply (scattered_cons "" "" _ (String c r)).
        apply scattered_skip, IH.
    + apply (scattered_cons "" (String c m)). apply IH.
  - destruct s as [|c s]; [constructor|]. apply scattered_skip, IH.
Qed.

(** Every text a scan reports was matched by the pattern somewhere. *)
Lemma findall_from_matches (pat : Regex.pattern) (fuel : nat) :
  forall s m, In m (Regex.findall_from fuel pat s) -> in_pattern pat m.
Proof.
  induction fuel as [|fuel IH]; intros s m H; [contradiction|].
  cbn [Regex.findall_from] in H.
  destruct (Regex.match_here pat s) as [[m0 r]|] eqn:Hm.
  - apply match_here_sound in Hm as [-> HL].
    destruct m0 as [|c m0].
    + destruct H as [<- | H]; [exact HL|].
      destruct r; simpl in H; [contradiction | eauto].
    + destruct H as [<- | H]; [exact HL | eauto].
  - destruct s; [contradiction | eauto].
Qed.

(** The fuel of [findall] is enough: more fuel finds nothing more. *)
Lemma findall_from_enough_fuel (pat : Regex.pattern) (f1 : nat) :
  forall f2 s, String.length s < f1 -> String.length s < f2 ->
    Regex.findall_from f1 pat s = Regex.findall_from f2 pat s.
Proof.
  induction f1 as [|f1 IH]; intros f2 s H1 H2; [lia|].
  destruct f2 as [|f2]; [lia|].
  cbn [Regex.findall_from].
  destruct (Regex.match_here pat s) as [[m r]|] eqn:Hm.
  - apply match_here_sound in Hm as [-> _].
    destruct m as [|c m].
    + destruct r as [|c r]; [reflexivity|].
      f_equal. simpl in *. apply IH; lia.
    + f_equal. simpl in H1, H2. rewrite str_length_app in H1, H2.
      apply IH; lia.
  - destruct s as [|c s]; [reflexivity|]. simpl in *. apply IH; lia.
Qed.

(* ===================================================================== *)
(** * What the number pattern matches, and that [float] reads it          *)
(* ===================================================================== *)

(** Settle a statement about one code point by running through all 256. *)
Ltac each_char c :=
  destruct c as [[] [] [] [] [] [] [] []]; vm_compute;
  try reflexivity; try discriminate; auto.

Lemma one_of_sign (c : ascii) :
  Regex.one_of "-+" c = true -> c = "-"%char \/ c = "+"%char.
Proof.
  unfold Regex.one_of. cbn [Text.contains Text.starts_with].
  destruct (Ascii.eqb_spec c "-"); [auto|].
  destruct (Ascii.eqb_spec c "+"); [auto|]. discriminate.
Qed.

Lemma one_of_dot (c : ascii) : Regex.one_of "." c = true -> c = "."%char.
Proof.
  unfold Regex.one_of. cbn [Text.contains Text.starts_with].
  destruct (Ascii.eqb_spec c "."); [auto | discriminate].
Qed.

Lemma number_pattern_text (m : string) :
  in_pattern Regex.number_pattern m -> number_text m.
Proof.
  unfold Regex.number_pattern. intros H.
  inversion H as [|a1 p1 sg m1 Hsg H1]; subst; clear H.
  inversion H1 as [|a2 p2 ip m2 Hip H2]; subst; clear H1.
  inversion H2 as [|a3 p3 dot m3 Hdot H3]; subst; clear H2.
  inversion H3 as [|a4 p4 fp m4 Hfp H4]; subst; clear H3.
  inversion H4; subst; clear H4.
  unfold atom_accepts in *. simpl in *.
  apply andb_true_iff in Hsg as [Hsg Hsg1].
  apply andb_true_iff in Hip as [Hip _].
  apply andb_true_iff in Hdot as [Hdot Hdot1].
  apply andb_true_iff in Hfp as [Hfp Hfp1].
  rewrite str_app_nil_r.
  apply (NumberText _ sg ip dot fp); auto.
  - destruct sg as [|c [|d sg]]; [auto | | discriminate].
    simpl in Hsg. rewrite andb_true_r in Hsg.
    destruct (one_of_sign _ Hsg) as [-> | ->]; auto.
  - destruct dot as [|c [|d dot]]; [auto | | discriminate].
    simpl in Hdot. rewrite andb_true_r in Hdot.
    rewrite (one_of_dot _ Hdot). auto.
  - destruct fp; [discriminate | discriminate].
Qed.

Lemma number_match_nonempty (s m r : string) :
  Regex.match_here Regex.number_pattern s = Some (m, r) -> m <> "".
Proof.
  intros H. apply match_here_sound in H as [_ H].
  apply number_pattern_text in H as [sg ip dot fp -> _ _ _ _ Hne].
  intros E.
  apply str_app_empty in E as [_ E]. apply str_app_empty in E as [_ E].
  apply str_app_empty in E as [_ E]. contradiction.
Qed.

Lemma number_text_chars (m : string) :
  number_text m -> Text.all_chars number_char m = true.
Proof.
  intros [sg ip dot fp -> Hsg Hip Hdot Hfp _].
  rewrite !all_chars_app.
  assert (Hd : forall w, Text.all_chars PyFloat.is_digit w = true ->
                         Text.all_chars number_char w = true).
  { intros w. apply all_chars_weaken. intros c Hc.
    unfold number_char. now rewrite Hc. }
  rewrite (Hd _ Hip), (Hd _ Hfp).
  destruct Hsg as [-> | [-> | ->]]; destruct Hdot as [-> | ->]; reflexivity.
Qed.

Lemma number_text_nonempty (m : string) : number_text m -> m <> "".
Proof.
  intros [sg ip dot fp -> _ _ _ _ Hne] E.
  apply str_app_empty in E as [_ E]. apply str_app_empty in E as [_ E].
  apply str_app_empty in E as [_ E]. contradiction.
Qed.

Lemma number_char_not_space (c : ascii) :
  number_char c = true -> PyFloat.is_float_space c = false.
Proof. each_char c. Qed.

Lemma number_char_not_underscore (c : ascii) :
  number_char c = true -> ("_" =? c)%char = false.
Proof. each_char c. Qed.

Lemma no_underscore (m : string) :
  Text.all_chars number_char m = true -> Text.contains "_" m = false.
Proof.
  induction m as [|c m IH]; [reflexivity|].
  intros H. cbn [Text.all_chars] in H. apply andb_true_iff in H as [Hc Hm].
  cbn [Text.contains Text.starts_with].
  now rewrite (number_char_not_underscore c Hc), (IH Hm).
Qed.

(** [float] strips nothing from a number text. *)
Lemma float_strip_id (m : string) :
  number_text m ->
  Text.rstrip_by PyFloat.is_float_space
    (Text.lstrip_by PyFloat.is_float_space m) = m.
Proof.
  intros Hm.
  pose proof (number_text_chars m Hm) as Hall.
  pose proof (number_text_nonempty m Hm) as Hne.
  destruct m as [|c m]; [congruence|].
  rewrite lstrip_by_id.
  2:{ simpl in Hall. apply andb_true_iff in Hall as [Hc _].
      now apply number_char_not_space. }
  apply rstrip_by_id. apply ends_with_char_all; [|exact Hne].
  revert Hall. apply all_chars_weaken. intros d Hd.
  now rewrite (number_char_not_space d Hd).
Qed.

Lemma span_digits_app (ds rest : string) :
  Text.all_chars PyFloat.is_digit ds = true ->
  match rest with
  | String c _ => PyFloat.is_digit c = false
  | EmptyString => True
  end ->
  PyFloat.span_digits (ds ++ rest) = (ds, rest).
Proof.
  intros Hds Hrest. induction ds as [|c ds IH]; simpl.
  - destruct rest as [|c rest]; [reflexivity|]. simpl. now rewrite Hrest.
  - simpl in Hds. apply andb_true_iff in Hds as [Hc Hds].
    now rewrite Hc, (IH Hds).
Qed.

Lemma span_digits_all (ds : string) :
  Text.all_chars PyFloat.is_digit ds = true ->
  PyFloat.span_digits ds = (ds, "").
Proof.
  intros H. rewrite <- (str_app_nil_r ds) at 1.
  now apply span_digits_app.
Qed.

Lemma special_number (neg : bool) (c : ascii) (s : string) :
  PyFloat.is_digit c = true \/ c = "."%char ->
  PyFloat.special neg (String c s) = None.
Proof.
  intros H.
  assert (Ei : (PyFloat.ascii_lower_char c =? "i")%char = false).
  { destruct H as [H | ->]; [|reflexivity]. revert H. each_char c. }
  assert (En : (PyFloat.ascii_lower_char c =? "n")%char = false).
  { destruct H as [H | ->]; [|reflexivity]. revert H. each_char c. }
  unfold PyFloat.special. cbn [PyFloat.ascii_lower String.eqb].
  now rewrite Ei, En.
Qed.

(** An unsigned number text is read as a number. *)
Lemma parse_number_text (neg : bool) (ip dot fp : string) :
  Text.all_chars PyFloat.is_digit ip = true ->
  dot = "" \/ dot = "." ->
  Text.all_chars PyFloat.is_digit fp = true ->
  fp <> "" ->
  exists f, PyFloat.parse_number neg (ip ++ dot ++ fp) = Some f.
Proof.
  intros Hip Hdot Hfp Hne. unfold PyFloat.parse_number.
  destruct Hdot as [-> | ->].
  - cbn [append]. rewrite span_digits_all.
    2:{ now rewrite all_chars_app, Hip, Hfp. }
    cbn [PyFloat.take_fraction Text.is_empty PyFloat.take_exponent].
    rewrite andb_true_r.
    destruct (Text.is_empty (ip ++ fp)) eqn:E; [|eauto].
    destruct ip; [|discriminate]. destruct fp; [congruence | discriminate].
  - rewrite span_digits_app; [|exact Hip | reflexivity].
    cbn [append PyFloat.take_fraction Ascii.eqb Bool.eqb andb].
    rewrite (span_digits_all fp Hfp).
    cbn [PyFloat.take_exponent Text.is_empty].
    destruct fp; [congruence|]. cbn [Text.is_empty]. rewrite andb_false_r.
    eauto.
Qed.

Lemma take_sign_unsigned (c : ascii) (s : string) :
  PyFloat.is_digit c = true \/ c = "."%char ->
  PyFloat.take_sign (String c s) = (false, String c s).
Proof.
  intros H. unfold PyFloat.take_sign.
  assert (Em : (c =? "-")%char = false).
  { destruct H as [H | ->]; [|reflexivity]. revert H. each_char c. }
  assert (Ep : (c =? "+")%char = false).
  { destruct H as [H | ->]; [|reflexivity]. revert H. each_char c. }
  now rewrite Em, Ep.
Qed.

(** The head of an unsigned number text is a digit or the point. *)
Lemma unsigned_head (ip dot fp : string) :
  Text.all_chars PyFloat.is_digit ip = true ->
  dot = "" \/ dot = "." ->
  Text.all_chars PyFloat.is_digit fp = true ->
  fp <> "" ->
  exists c s, ip ++ dot ++ fp = String c s
              /\ (PyFloat.is_digit c = true \/ c = "."%char).
Proof.
  intros Hip Hdot Hfp Hne.
  destruct ip as [|c ip].
  - destruct Hdot as [-> | ->].
    + destruct fp as [|c fp]; [congruence|]. exists c, fp.
      simpl in Hfp. apply andb_true_iff in Hfp as [Hc _]. auto.
    + exists "."%char, fp. auto.
  - exists c, (ip ++ dot ++ fp).
    simpl in Hip. apply andb_true_iff in Hip as [Hc _]. auto.
Qed.

Lemma parse_plain_number_text (m : string) :
  number_text m -> exists f, PyFloat.parse_plain m = Some f.
Proof.
  intros [sg ip dot fp -> Hsg Hip Hdot Hfp Hne].
  destruct (unsigned_head ip dot fp Hip Hdot Hfp Hne) as (c & s & E & Hc).
  destruct (parse_number_text false ip dot fp Hip Hdot Hfp Hne) as [f0 Hf0].
  destruct (parse_number_text true ip dot fp Hip Hdot Hfp Hne) as [f1 Hf1].
  unfold PyFloat.parse_plain.
  destruct Hsg as [-> | [-> | ->]]; cbn [append].
  - rewrite E, take_sign_unsigned, special_number by exact Hc.
    rewrite <- E. eauto.
  - cbn [PyFloat.take_sign Ascii.eqb Bool.eqb andb].
    rewrite E, special_number by exact Hc. rewrite <- E. eauto.
  - cbn [PyFloat.take_sign Ascii.eqb Bool.eqb andb].
    rewrite E, special_number by exact Hc. rewrite <- E. eauto.
Qed.

(** [float(m)] succeeds on every number text. *)
Lemma float_reads_number_text (m : string) :
  number_text m -> exists f, PyFloat.of_string m = Some f.
Proof.
  intros Hm. unfold PyFloat.of_string.
  rewrite (float_strip_id m Hm).
  rewrite (no_underscore m (number_text_chars m Hm)).
  now apply parse_plain_number_text.
Qed.

Lemma findall_number_texts (s m : string) :
  In m (Regex.findall Regex.number_pattern s) -> number_text m.
Proof.
  intros H. apply findall_from_matches in H.
  now apply number_pattern_text.
Qed.

(* ===================================================================== *)
(** * The matches of the normalised query are those of the query         *)
(* ===================================================================== *)

Lemma consume_lower (c : ascii) (x : Regex.result) :
  Regex.consume (Text.lower_char c) (lower_pair x)
  = lower_pair (Regex.consume c x).
Proof. now destruct x as [[m r]|]. Qed.

Lemma or_else_lower (x y : Regex.result) :
  Regex.or_else (lower_pair x) (lower_pair y)
  = lower_pair (Regex.or_else x y).
Proof. now destruct x as [[m r]|]. Qed.

Lemma star_lower (p : ascii -> bool) (k k' : string -> Regex.result) :
  lower_blind p ->
  (forall s, k' (Text.lower s) = lower_pair (k s)) ->
  forall s, Regex.star p k' (Text.lower s) = lower_pair (Regex.star p k s).
Proof.
  intros Hp Hk. induction s as [|c s IH]; [apply (Hk "")|].
  pose proof (Hk (String c s)) as E. cbn [Text.lower] in E.
  cbn [Text.lower Regex.star]. rewrite Hp.
  destruct (p c); [|exact E].
  rewrite IH, consume_lower, E. apply or_else_lower.
Qed.

Lemma match_here_lower (pat : Regex.pattern) :
  Forall (fun a => lower_blind (Regex.cls a)) pat ->
  forall s, Regex.match_here pat (Text.lower s)
            = lower_pair (Regex.match_here pat s).
Proof.
  induction pat as [|a pat IH]; intros H s; [reflexivity|].
  inversion H as [|? ? Ha Hpat]; subst. specialize (IH Hpat).
  cbn [Regex.match_here]. destruct (Regex.rep a).
  - destruct s as [|c s]; [reflexivity|]. cbn [Text.lower]. rewrite Ha.
    destruct (Regex.cls a c); [|reflexivity].
    now rewrite IH, consume_lower.
  - destruct s as [|c s]; [apply (IH "")|].
    pose proof (IH (String c s)) as E. cbn [Text.lower] in E.
    cbn [Text.lower]. rewrite Ha.
    destruct (Regex.cls a c); [|exact E].
    rewrite IH, consume_lower, E. apply or_else_lower.
  - now apply star_lower.
  - destruct s as [|c s]; [reflexivity|]. cbn [Text.lower]. rewrite Ha.
    destruct (Regex.cls a c); [|reflexivity].
    rewrite (star_lower _ (Regex.match_here pat)) by assumption.
    apply consume_lower.
Qed.

Lemma findall_from_lower (pat : Regex.pattern) :
  Forall (fun a => lower_blind (Regex.cls a)) pat ->
  forall fuel s,
    Regex.findall_from fuel pat (Text.lower s)
    = map Text.lower (Regex.findall_from fuel pat s).
Proof.
  intros H. induction fuel as [|fuel IH]; intros s; [reflexivity|].
  cbn [Regex.findall_from]. rewrite (match_here_lower pat H).
  destruct (Regex.match_here pat s) as [[m r]|]; cbn.
  - destruct m as [|c m]; cbn.
    + destruct s as [|c s]; cbn; [reflexivity | now rewrite IH].
    + now rewrite IH.
  - destruct s as [|c s]; cbn; [reflexivity | apply IH].
Qed.

Lemma length_lower (s : string) :
  String.length (Text.lower s) = String.length s.
Proof. induction s as [|c s IH]; simpl; [reflexivity | now rewrite IH]. Qed.

Lemma number_char_lower (c : ascii) :
  number_char c = true -> Text.lower_char c = c.
Proof. each_char c. Qed.

Lemma number_text_lower (m : string) :
  Text.all_chars number_char m = true -> Text.lower m = m.
Proof.
  induction m as [|c m IH]; [reflexivity|].
  simpl. intros H. apply andb_true_iff in H as [Hc Hm].
  now rewrite (number_char_lower c Hc), (IH Hm).
Qed.

Lemma decimal_lower_blind : lower_blind Text.is_decimal.
Proof. intros c. each_char c. Qed.

Lemma sign_lower_blind : lower_blind (Regex.one_of "-+").
Proof. intros c. each_char c. Qed.

Lemma dot_lower_blind : lower_blind (Regex.one_of ".").
Proof. intros c. each_char c. Qed.

Lemma number_pattern_lower_blind :
  Forall (fun a => lower_blind (Regex.cls a)) Regex.number_pattern.
Proof.
  unfold Regex.number_pattern.
  repeat constructor; simpl;
    auto using decimal_lower_blind, sign_lower_blind, dot_lower_blind.
Qed.

(** Lower-casing a text does not change what the number pattern finds. *)
Lemma findall_lower (s : string) :
  Regex.findall Regex.number_pattern (Text.lower s)
  = Regex.findall Regex.number_pattern s.
Proof.
  unfold Regex.findall. rewrite length_lower.
  rewrite (findall_from_lower _ number_pattern_lower_blind).
  rewrite <- (map_id (Regex.findall_from _ _ s)) at 2.
  apply map_ext_in. intros m Hm.
  apply number_text_lower, number_text_chars, number_pattern_text.
  exact (findall_from_matches _ _ _ _ Hm).
Qed.

Lemma number_pattern_rejects (c : ascii) (s : string) :
  number_char c = false ->
  Regex.match_here Regex.number_pattern (String c s) = None.
Proof.
  intros H.
  assert (Hs : Regex.one_of "-+" c = false) by (revert H; each_char c).
  assert (Hd : Text.is_decimal c = false) by (revert H; each_char c).
  assert (Hp : Regex.one_of "." c = false) by (revert H; each_char c).
  unfold Regex.number_pattern.
  cbn [Regex.match_here Regex.rep Regex.cls Regex.star].
  now rewrite Hs, Hd, Hp.
Qed.

Lemma space_not_number_char (c : ascii) :
  Text.is_space c = true -> number_char c = false.
Proof. each_char c. Qed.

(** Leading whitespace holds no match. *)
Lemma findall_lstrip (s : string) :
  Regex.findall Regex.number_pattern (Text.lstrip_by Text.is_space s)
  = Regex.findall Regex.number_pattern s.
Proof.
  induction s as [|c s IH]; [reflexivity|].
  cbn [Text.lstrip_by]. destruct (Text.is_space c) eqn:Hc; [|reflexivity].
  rewrite IH. unfold Regex.findall at 2.
  cbn [String.length Regex.findall_from].
  now rewrite (number_pattern_rejects c s (space_not_number_char c Hc)).
Qed.

Lemma rstrip_by_split (p : ascii -> bool) (s : string) :
  exists ws, s = Text.rstrip_by p s ++ ws /\ Text.all_chars p ws = true.
Proof.
  induction s as [|c s (ws & E & Hws)]; [now exists ""|].
  cbn [Text.rstrip_by].
  destruct (Text.rstrip_by p s) as [|d r]; cbn [Text.is_empty andb].
  - destruct (p c) eqn:Hc.
    + exists (String c s). split; [reflexivity|].
      simpl in E. subst ws. simpl. now rewrite Hc.
    + exists ws. split; [now rewrite E at 1 | exact Hws].
  - exists ws. split; [now rewrite E at 1 | exact Hws].
Qed.

Lemma consume_keep_rest (ws : string) (c : ascii) (x : Regex.result) :
  Regex.consume c (keep_rest ws x) = keep_rest ws (Regex.consume c x).
Proof. now destruct x as [[m r]|]. Qed.

Lemma or_else_keep_rest (ws : string) (x y : Regex.result) :
  Regex.or_else (keep_rest ws x) (keep_rest ws y)
  = keep_rest ws (Regex.or_else x y).
Proof. now destruct x as [[m r]|]. Qed.

Lemma star_trailing (p : ascii -> bool) (k k' : string -> Regex.result)
  (ws : string) :
  starts_outside p ws ->
  (forall s, k' (s ++ ws) = keep_rest ws (k s)) ->
  forall s, Regex.star p k' (s ++ ws) = keep_rest ws (Regex.star p k s).
Proof.
  intros Hws Hk. induction s as [|c s IH].
  - cbn [append Regex.star]. rewrite <- (Hk "").
    destruct ws as [|c ws]; [reflexivity|].
    simpl in Hws. cbn [Regex.star append]. now rewrite Hws.
  - cbn [append Regex.star].
    destruct (p c); [|apply (Hk (String c s))].
    rewrite IH, consume_keep_rest.
    change (String c (s ++ ws)) with (String c s ++ ws). rewrite Hk.
    apply or_else_keep_rest.
Qed.

(** A match does not look into what follows the text, when that starts
    outside every class of the pattern. *)
Lemma match_here_trailing (pat : Regex.pattern) (ws : string) :
  Forall (fun a => starts_outside (Regex.cls a) ws) pat ->
  forall s, Regex.match_here pat (s ++ ws)
            = keep_rest ws (Regex.match_here pat s).
Proof.
  induction pat as [|a pat IH]; intros H s; [reflexivity|].
  inversion H as [|? ? Ha Hpat]; subst. specialize (IH Hpat).
  assert (Hout : forall X (x y : X),
            match ws with
            | String c w => if Regex.cls a c then x else y
            | EmptyString => y
            end = y).
  { intros X x y. destruct ws as [|c w]; [reflexivity|].
    simpl in Ha. now rewrite Ha. }
  cbn [Regex.match_here]. destruct (Regex.rep a).
  - destruct s as [|c s]; cbn [append].
    + destruct ws as [|c w]; [reflexivity|]. simpl in Ha. now rewrite Ha.
    + destruct (Regex.cls a c); [|reflexivity].
      now rewrite IH, consume_keep_rest.
  - destruct s as [|c s]; cbn [append].
    + rewrite <- (IH ""). cbn [append].
      destruct ws as [|c w]; [reflexivity|]. simpl in Ha. now rewrite Ha.
    + change (String c (s ++ ws)) with (String c s ++ ws).
      destruct (Regex.cls a c); [|apply IH].
      rewrite (IH (String c s)). cbn [append].
      rewrite IH, consume_keep_rest. apply or_else_keep_rest.
  - now apply star_trailing.
  - destruct s as [|c s]; cbn [append].
    + destruct ws as [|c w]; [reflexivity|]. simpl in Ha. now rewrite Ha.
    + destruct (Regex.cls a c); [|reflexivity].
      rewrite (star_trailing _ (Regex.match_here pat)) by assumption.
      apply consume_keep_rest.
Qed.

Lemma spaces_outside_number_pattern (ws : string) :
  Text.all_chars Text.is_space ws = true ->
  Forall (fun a => starts_outside (Regex.cls a) ws) Regex.number_pattern.
Proof.
  intros H. destruct ws as [|c ws].
  - unfold Regex.number_pattern. repeat constructor.
  - simpl in H. apply andb_true_iff in H as [Hc _].
    unfold Regex.number_pattern.
    repeat constructor; simpl; revert Hc; each_char c.
Qed.

Lemma findall_from_spaces (ws : string) :
  Text.all_chars Text.is_space ws = true ->
  forall fuel, Regex.findall_from fuel Regex.number_pattern ws = [].
Proof.
  induction ws as [|c ws IH]; intros H fuel.
  - destruct fuel; reflexivity.
  - simpl in H. apply andb_true_iff in H as [Hc Hws].
    destruct fuel as [|fuel]; [reflexivity|].
    cbn [Regex.findall_from].
    rewrite (number_pattern_rejects c ws (space_not_number_char c Hc)).
    now apply IH.
Qed.

Lemma findall_from_trailing (ws : string) :
  Text.all_chars Text.is_space ws = true ->
  forall fuel s,
    Regex.findall_from fuel Regex.number_pattern (s ++ ws)
    = Regex.findall_from fuel Regex.number_pattern s.
Proof.
  intros H. induction fuel as [|fuel IH]; intros s; [reflexivity|].
  cbn [Regex.findall_from].
  rewrite (match_here_trailing _ ws (spaces_outside_number_pattern ws H)).
  destruct (Regex.match_here Regex.number_pattern s) as [[m r]|] eqn:Hm.
  - cbn. destruct m as [|c m].
    + now apply number_match_nonempty in Hm.
    + now rewrite IH.
  - cbn. destruct s as [|c s]; [|apply IH].
    cbn [append]. destruct ws as [|c ws]; [reflexivity|].
    apply findall_from_spaces.
    simpl in H. now apply andb_true_iff in H as [_ H].
Qed.

(** Trailing whitespace holds no match. *)
Lemma findall_rstrip (s : string) :
  Regex.findall Regex.number_pattern (Text.rstrip_by Text.is_space s)
  = Regex.findall Regex.number_pattern s.
Proof.
  destruct (rstrip_by_split Text.is_space s) as (ws & E & Hws).
  unfold Regex.findall. rewrite E at 3 4.
  rewrite (findall_from_trailing ws Hws).
  apply findall_from_enough_fuel; rewrite ?str_length_app; lia.
Qed.

(** [process_query] searches the query itself: stripping and
    lower-casing change nothing for the number pattern. *)
Lemma findall_normalised (query : string) :
  Regex.findall Regex.number_pattern (Text.lower (Text.strip query))
  = Regex.findall Regex.number_pattern query.
Proof.
  unfold Text.strip. now rewrite findall_lower, findall_rstrip, findall_lstrip.
Qed.

(* ===================================================================== *)
(** * Reasoning rules for [eff]                                           *)
(* ===================================================================== *)

Lemma ensures_ret {A} (a : A) (Q : A -> Prop) : Q a -> ensures (ret a) Q.
Proof. intros H tr a' tr' E. injection E as <- _. exact H. Qed.

Lemma ensures_bind {A B} (m : eff A) (k : A -> eff B) (Q : B -> Prop) :
  (forall a, ensures (k a) Q) -> ensures (bind m k) Q.
Proof.
  intros Hk tr b tr' E. unfold bind in E.
  destruct (m tr) as [[a|e] tr1]; [|discriminate]. exact (Hk a _ _ _ E).
Qed.

Lemma ensures_bind_with {A B} (P : A -> Prop) (m : eff A) (k : A -> eff B)
  (Q : B -> Prop) :
  ensures m P -> (forall a, P a -> ensures (k a) Q) -> ensures (bind m k) Q.
Proof.
  intros Hm Hk tr b tr' E. unfold bind in E.
  destruct (m tr) as [[a|e] tr1] eqn:Em; [|discriminate].
  exact (Hk a (Hm _ _ _ Em) _ _ _ E).
Qed.

Lemma ensures_try {A} (body : eff A) hs (Q : A -> Prop) :
  ensures body Q ->
  (forall e h, select e hs = Some h -> ensures (h e) Q) ->
  ensures (try_except body hs) Q.
Proof.
  intros Hb Hh tr a tr' E. unfold try_except in E.
  destruct (body tr) as [[a0|e] tr1] eqn:Eb.
  - injection E as <- <-. exact (Hb _ _ _ Eb).
  - destruct (select e hs) as [h|] eqn:Es; [|discriminate].
    exact (Hh e h Es _ _ _ E).
Qed.

Lemma total_ret {A} (a : A) : total (ret a).
Proof. intros tr. now exists a, tr. Qed.

Lemma total_log_then {A} lvl r (m : eff A) : total m -> total (log lvl r ;; m).
Proof. intros H tr. unfold bind, log, emit. apply H. Qed.

(** A [try] with a clause for every exception, whose clauses return,
    returns. *)
Lemma total_try {A} (body : eff A) hs :
  (forall e, exists h, select e hs = Some h /\ total (h e)) ->
  total (try_except body hs).
Proof.
  intros Hh tr. unfold try_except.
  destruct (body tr) as [[a|e] tr1]; [now exists a, tr1|].
  destruct (Hh e) as (h & -> & Ht). apply Ht.
Qed.

Lemma subclass_Exception (c : exn_class) : subclass c Exception = true.
Proof. destruct c; reflexivity. Qed.

(* ===================================================================== *)
(** * [add_numbers]                                                       *)
(* ===================================================================== *)

Lemma consistent_failure (msg : string) :
  consistent (mkResponse false msg None).
Proof. unfold consistent. simpl. split; [discriminate | congruence]. Qed.

Lemma consistent_success (msg : string) (f : spec_float) :
  consistent (mkResponse true msg (Some f)).
Proof. unfold consistent. simpl. split; [discriminate | reflexivity]. Qed.

Create HintDb eff_rules.
#[local] Hint Resolve consistent_failure consistent_success : eff_rules.

Ltac ensures_step :=
  first
    [ apply ensures_ret
    | apply ensures_bind; intros ?
    | match goal with
      | |- ensures (if ?b then _ else _) _ => destruct b
      | |- ensures (match ?x with _ => _ end) _ => destruct x
      end ].

(** Unfolding the monad in a goal. *)
Ltac eff_red :=
  cbv beta iota zeta delta [try_except bind post log emit lift ret].

Section AddNumbers.

Variable float_repr : spec_float -> string.
Variable py_repr : pyval -> string.
Variable requests_post : request -> outcome response.

Let add := add_numbers float_repr py_repr requests_post.

Lemma unwrap_result_consistent (data : pyval) :
  ensures (unwrap_result data)
    (fun early => match early with
                  | Some r => consistent r
                  | None => True
                  end).
Proof.
  unfold unwrap_result.
  repeat ensures_step; auto with eff_rules.
Qed.

Lemma add_numbers_consistent self num1 num2 :
  ensures (add self num1 num2) consistent.
Proof.
  unfold add, add_numbers, read_response, add_handlers.
  destruct (negb (configured self)); [apply ensures_ret; auto with eff_rules|].
  apply ensures_try.
  - do 6 (apply ensures_bind; intros ?).
    apply ensures_bind_with
      with (P := fun p => match p with
                          | inl r => consistent r
                          | inr _ => True
                          end).
    + apply ensures_try.
      * repeat ensures_step; auto with eff_rules.
      * intros e h Hs. simpl in Hs.
        destruct (subclass (exn_class_of e) JSONDecodeError);
          [|discriminate].
        injection Hs as <-. repeat ensures_step; auto with eff_rules.
    + intros [r|data] Hp; [now apply ensures_ret|].
      destruct (status_code a1 =? 200)%Z.
      * apply ensures_bind_with with (1 := unwrap_result_consistent data).
        intros [r|] Hr; apply ensures_ret; auto with eff_rules.
      * repeat ensures_step; auto with eff_rules.
  - intros e h Hs. simpl in Hs.
    destruct (subclass (exn_class_of e) RequestException).
    + injection Hs as <-. repeat ensures_step; auto with eff_rules.
    + rewrite subclass_Exception in Hs. injection Hs as <-.
      repeat ensures_step; auto with eff_rules.
Qed.

Lemma add_numbers_total self num1 num2 : total (add self num1 num2).
Proof.
  unfold add, add_numbers, add_handlers.
  destruct (negb (configured self)); [apply total_ret|].
  apply total_try. intros e. simpl.
  destruct (subclass (exn_class_of e) RequestException).
  - eexists. split; [reflexivity|]. apply total_log_then, total_ret.
  - rewrite subclass_Exception.
    eexists. split; [reflexivity|]. apply total_log_then, total_ret.
Qed.

(** Running [add_numbers] with a configured client up to the answer of
    the network. *)
Ltac run_add Hconf Hpost :=
  unfold add, add_numbers, read_response, add_handlers;
  rewrite Hconf; cbn [negb]; eff_red;
  unfold add_request in Hpost; rewrite Hpost; cbv beta iota.

(** C3: with an empty credential field [add_numbers] returns at once:
    [succeeded] is false, the message is "ServiceNow credentials not
    configured", and the trace is unchanged: no request is sent and
    nothing is logged. *)
Theorem add_numbers_unconfigured self num1 num2 tr :
  instance_url self = ""
  \/ (username self = None \/ username self = Some "")
  \/ (password self = None \/ password self = Some "") ->
  add self num1 num2 tr
  = (Ok (mkResponse false "ServiceNow credentials not configured" None), tr)
  /\ Text.contains "credentials not configured"
       "ServiceNow credentials not configured" = true.
Proof.
  intros H. split; [|reflexivity].
  assert (Hc : configured self = false).
  { unfold configured. cbn [forallb].
    destruct H as [H | [[H | H] | [H | H]]]; rewrite H; cbn;
      rewrite ?andb_false_r; reflexivity. }
  unfold add, add_numbers. now rewrite Hc.
Qed.

(** C9: when [response.json()] raises a [json.JSONDecodeError], whatever
    the status code, the answer is [succeeded=false] with "Invalid JSON
    response from server". *)
Theorem add_numbers_invalid_json self num1 num2 tr resp e :
  configured self = true ->
  requests_post (add_request self num1 num2) = Ok resp ->
  resp_json resp = Raise e ->
  subclass (exn_class_of e) JSONDecodeError = true ->
  fst (add self num1 num2 tr)
  = Ok (mkResponse false "Invalid JSON response from server" None).
Proof.
  intros Hconf Hpost Hjson Hcls.
  run_add Hconf Hpost. rewrite Hjson. cbv beta iota.
  cbn [select]. rewrite Hcls. reflexivity.
Qed.

(** C8: [add_numbers] always produces a response, and in it the value is
    present exactly when [succeeded] is true. *)
Theorem add_numbers_value_iff_succeeded self num1 num2 tr :
  exists r tr',
    add self num1 num2 tr = (Ok r, tr')
    /\ (success r = true <-> result r <> None).
Proof.
  destruct (add_numbers_total self num1 num2 tr) as (r & tr' & E).
  exists r, tr'. split; [exact E|].
  exact (add_numbers_consistent self num1 num2 tr r tr' E).
Qed.

Ltac outer_handler e :=
  unfold failure_message; cbn [select];
  destruct (subclass (exn_class_of e) RequestException);
  [reflexivity | rewrite subclass_Exception; reflexivity].

(** C6: [add_numbers] never raises.  When [requests.post] raises, and
    when [response.json()] raises something other than a
    [JSONDecodeError], the exception is caught and the answer is
    [succeeded=false] without a value: a [RequestException] (timeout,
    connection failure, ...) is reported as "Request failed: " followed
    by its text, any other exception as "Unexpected error: " followed by
    its text. *)
Theorem add_numbers_never_raises self num1 num2 tr :
  (exists r tr', add self num1 num2 tr = (Ok r, tr'))
  /\ (forall e,
        configured self = true ->
        requests_post (add_request self num1 num2) = Raise e ->
        fst (add self num1 num2 tr)
        = Ok (mkResponse false (failure_message e) None))
  /\ (forall resp e,
        configured self = true ->
        requests_post (add_request self num1 num2) = Ok resp ->
        resp_json resp = Raise e ->
        subclass (exn_class_of e) JSONDecodeError = false ->
        fst (add self num1 num2 tr)
        = Ok (mkResponse false (failure_message e) None)).
Proof.
  split; [apply add_numbers_total|]. split.
  - intros e Hconf Hpost. run_add Hconf Hpost. outer_handler e.
  - intros resp e Hconf Hpost Hjson Hcls. run_add Hconf Hpost.
    rewrite Hjson. cbv beta iota. cbn [select]. rewrite Hcls.
    outer_handler e.
Qed.

(** What the nested tests of the 200 branch decide for a JSON object. *)
Lemma unwrap_result_object d tr :
  fst (unwrap_result (PDict d) tr)
  = match nested_result (PDict d) with
    | Some v =>
        if is_int_or_float v then
          match py_float v with
          | Ok f => Ok (Some (mkResponse true "Addition successful" (Some f)))
          | Raise e => Raise e
          end
        else Ok None
    | None => Ok None
    end.
Proof.
  unfold unwrap_result, nested_result. eff_red. cbn [py_contains].
  destruct (lookup "result" d) as [v|] eqn:E1; [|reflexivity].
  cbn [py_getitem]. rewrite E1.
  destruct v; try reflexivity.
  cbn [is_dict py_contains].
  destruct (lookup "result" d0) as [v|] eqn:E2; [|reflexivity].
  cbn [py_getitem]. rewrite E2.
  destruct (is_int_or_float v); [|reflexivity].
  destruct (py_float v); reflexivity.
Qed.

(** C2, as the code has it: after a 200 response whose JSON body is an
    object, [add_numbers] succeeds with the float64 value of
    [result.result] when that is a JSON number in float64 range; it
    answers "Invalid response format from API" when the outer key is
    missing, the nested value is not an object, the inner key is missing,
    or the inner value is null, a string, an array or an object; an
    integer beyond the float64 range is not coerced: the conversion
    raises and the answer is "Unexpected error: int too large to convert
    to float".  The body [{"result":{"result":42}}] gives the value
    42.0. *)
Theorem add_numbers_ok_response self num1 num2 tr resp d :
  configured self = true ->
  requests_post (add_request self num1 num2) = Ok resp ->
  status_code resp = 200%Z ->
  resp_json resp = Ok (PDict d) ->
  (forall v f,
      nested_result (PDict d) = Some v -> json_number v = Some f ->
      fst (add self num1 num2 tr)
      = Ok (mkResponse true "Addition successful" (Some f)))
  /\ (nested_result (PDict d) = None
      \/ (exists v, nested_result (PDict d) = Some v
                    /\ not_a_number v = true) ->
      fst (add self num1 num2 tr)
      = Ok (mkResponse false "Invalid response format from API" None))
  /\ (forall z,
        nested_result (PDict d) = Some (PInt z) -> PyFloat.of_int z = None ->
        fst (add self num1 num2 tr)
        = Ok (mkResponse false
                "Unexpected error: int too large to convert to float" None))
  /\ (d = [("result", PDict [("result", PInt 42)])] ->
      fst (add self num1 num2 tr)
      = Ok (mkResponse true "Addition successful"
              (Some (S754_finite false (42 * 2 ^ 47) (-47))))).
Proof.
  intros Hconf Hpost Hstatus Hjson.
  assert (Hadd : exists tr0,
    fst (add self num1 num2 tr)
    = match fst (unwrap_result (PDict d) tr0) with
      | Ok (Some r) => Ok r
      | Ok None =>
          Ok (mkResponse false "Invalid response format from API" None)
      | Raise e => Ok (mkResponse false (failure_message e) None)
      end).
  { run_add Hconf Hpost. rewrite Hjson. cbv beta iota. rewrite Hstatus.
    cbn [Z.eqb Pos.eqb].
    match goal with |- context [unwrap_result (PDict d) ?t] =>
      exists t; destruct (unwrap_result (PDict d) t) as [[[r|]|e] tr1]
    end; try reflexivity.
    cbn [fst]. outer_handler e. }
  destruct Hadd as [tr0 Hadd]. rewrite unwrap_result_object in Hadd.
  split; [|split; [|split]].
  - intros v f Hv Hf. rewrite Hadd, Hv.
    destruct v; try discriminate; cbn in Hf |- *.
    + now rewrite Hf.
    + now injection Hf as ->.
  - intros [Hn | (v & Hv & Hnot)]; rewrite Hadd.
    + now rewrite Hn.
    + rewrite Hv. destruct v; try discriminate; reflexivity.
  - intros z Hv Hz. rewrite Hadd, Hv. cbn [is_int_or_float py_float].
    now rewrite Hz.
  - intros ->. rewrite Hadd. reflexivity.
Qed.

(** C5, as the code has it: after a response with a status other than
    200 whose body parses as JSON, [add_numbers] never succeeds; when
    the body is an object whose [error] member is absent or an object,
    the message is "API Error: " followed by [error.message], with
    "Unknown error" standing in when [error] or its [message] is absent.
    The body [{"error":{"message":"boom"}}] gives "API Error: boom". *)
Theorem add_numbers_error_response self num1 num2 tr resp body :
  configured self = true ->
  requests_post (add_request self num1 num2) = Ok resp ->
  status_code resp <> 200%Z ->
  resp_json resp = Ok body ->
  (exists msg,
      fst (add self num1 num2 tr) = Ok (mkResponse false msg None))
  /\ (forall d err,
        body = PDict d -> error_object d = Some err ->
        fst (add self num1 num2 tr)
        = Ok (mkResponse false
                ("API Error: "
                 ++ py_str float_repr py_repr
                      (match lookup "message" err with
                       | Some v => v
                       | None => PStr "Unknown error"
                       end))
                None))
  /\ (body = PDict [("error", PDict [("message", PStr "boom")])] ->
      fst (add self num1 num2 tr)
      = Ok (mkResponse false "API Error: boom" None)).
Proof.
  intros Hconf Hpost Hstatus Hjson.
  apply Z.eqb_neq in Hstatus.
  assert (Hadd :
    fst (add self num1 num2 tr)
    = match py_get body "error" (PDict []) with
      | Ok err =>
          match py_get err "message" (PStr "Unknown error") with
          | Ok v =>
              Ok (mkResponse false
                    ("API Error: " ++ py_str float_repr py_repr v) None)
          | Raise e => Ok (mkResponse false (failure_message e) None)
          end
      | Raise e => Ok (mkResponse false (failure_message e) None)
      end).
  { run_add Hconf Hpost. rewrite Hjson. cbv beta iota. rewrite Hstatus.
    destruct (py_get body "error" (PDict [])) as [err|e];
      [|outer_handler e].
    destruct (py_get err "message" (PStr "Unknown error")) as [v|e];
      [reflexivity | outer_handler e]. }
  rewrite Hadd. split; [|split].
  - destruct (py_get body "error" (PDict [])) as [err|e]; [|eauto].
    destruct (py_get err "message" (PStr "Unknown error")); eauto.
  - intros d err -> Herr. unfold error_object in Herr. cbn [py_get].
    destruct (lookup "error" d) as [v|].
    + destruct v; try discriminate. injection Herr as ->. reflexivity.
    + injection Herr as <-. reflexivity.
  - intros ->. reflexivity.
Qed.

End AddNumbers.

(* ===================================================================== *)
(** * [process_query]                                                     *)
(* ===================================================================== *)

(** Two matches of a scan stand in the text in the order of the list. *)
Lemma two_matches_in_order (pat : Regex.pattern) (s m1 m2 : string) :
  Regex.findall pat s = [m1; m2] ->
  exists pre mid post, s = pre ++ m1 ++ mid ++ m2 ++ post.
Proof.
  intros H.
  pose proof (findall_from_scattered pat (S (String.length s)) s) as Hs.
  fold (Regex.findall pat s) in Hs. rewrite H in Hs.
  inversion Hs as [|pre ? ? rest1 Hs1]; subst.
  inversion Hs1 as [|mid ? ? post _]; subst.
  now exists pre, mid, post.
Qed.

Section ProcessQuery.

Variable float_repr : spec_float -> string.
Variable py_repr : pyval -> string.
Variable requests_post : request -> outcome response.

Let add := add_numbers float_repr py_repr requests_post.
Let process := process_query float_repr py_repr requests_post.

Lemma add_numbers_messages self num1 num2 :
  ensures (add self num1 num2) not_invalid_number.
Proof.
  unfold add, add_numbers, read_response, add_handlers.
  destruct (negb (configured self)); [now apply ensures_ret|].
  apply ensures_try.
  - do 6 (apply ensures_bind; intros ?).
    apply ensures_bind_with
      with (P := fun p => match p with
                          | inl r => not_invalid_number r
                          | inr _ => True
                          end).
    + apply ensures_try.
      * repeat ensures_step; exact I.
      * intros e h Hs. simpl in Hs.
        destruct (subclass (exn_class_of e) JSONDecodeError);
          [|discriminate].
        injection Hs as <-. repeat ensures_step; reflexivity.
    + intros [r|data] Hp; [now apply ensures_ret|].
      destruct (status_code a1 =? 200)%Z.
      * apply ensures_bind_with
          with (P := fun early => match early with
                                  | Some r => not_invalid_number r
                                  | None => True
                                  end).
        -- unfold unwrap_result.
           repeat ensures_step; first [exact I | reflexivity].
        -- intros [r|] Hr; apply ensures_ret; [exact Hr | reflexivity].
      * repeat ensures_step; reflexivity.
  - intros e h Hs. simpl in Hs.
    destruct (subclass (exn_class_of e) RequestException).
    + injection Hs as <-. repeat ensures_step; reflexivity.
    + rewrite subclass_Exception in Hs. injection Hs as <-.
      repeat ensures_step; reflexivity.
Qed.

(** The list comprehension of [process_query] converts every match. *)
Lemma map_eff_floats (ms : list string) (tr : list event) :
  (forall m, In m ms -> number_text m) ->
  exists fs,
    map_eff (py_float_of_str py_repr) ms tr = (Ok fs, tr)
    /\ Forall2 (fun m f => PyFloat.of_string m = Some f) ms fs.
Proof.
  induction ms as [|m ms IH]; intros H.
  - exists []. split; [reflexivity | constructor].
  - destruct (float_reads_number_text m (H m (or_introl eq_refl)))
      as [f Hf].
    destruct IH as (fs & E & Hfs); [intros; apply H; now right|].
    exists (f :: fs). split; [|now constructor].
    cbn [map_eff]. unfold bind at 1. unfold py_float_of_str at 1.
    rewrite Hf. unfold ret at 1. unfold bind at 1. now rewrite E.
Qed.

(** [process_query], run: the matches are converted, and their number
    decides between the three error texts and the call of
    [add_numbers]. *)
Lemma process_query_run query client tr :
  exists fs,
    Forall2 (fun m f => PyFloat.of_string m = Some f)
      (Regex.findall Regex.number_pattern query) fs
    /\ match fs with
       | [] => process query client tr = (Ok msg_no_numbers, tr)
       | [_] => process query client tr = (Ok msg_one_number, tr)
       | [f1; f2] =>
           exists r tr',
             add client f1 f2 tr = (Ok r, tr')
             /\ process query client tr = (Ok (shown float_repr r), tr')
       | _ => process query client tr = (Ok msg_too_many, tr)
       end.
Proof.
  destruct (map_eff_floats
              (Regex.findall Regex.number_pattern
                 (Text.lower (Text.strip query))) tr
              (findall_number_texts _)) as (fs & E & Hfs).
  exists fs. split; [now rewrite <- (findall_normalised query)|].
  unfold process, process_query. eff_red. rewrite E. cbv beta iota.
  destruct fs as [|f1 [|f2 [|f3 fs]]]; try reflexivity.
  cbn [List.length Nat.eqb Nat.ltb Nat.leb py_index nth_error].
  destruct (add_numbers_total float_repr py_repr requests_post
              client f1 f2 tr) as (r & tr' & Er).
  exists r, tr'. split; [exact Er|].
  rewrite Er. unfold shown. now destruct (success r).
Qed.

(** C1: when the number pattern matches exactly two texts [m1], [m2] in
    the query, in this order, the normalised query that [process_query]
    searches has the same two matches, both are read as floats [f1],
    [f2], and [process_query] is the call [add_numbers(f1, f2)], earlier
    match first, followed by the display of its response. *)
Theorem process_query_two_numbers query client tr m1 m2 :
  Regex.findall Regex.number_pattern query = [m1; m2] ->
  exists f1 f2 r tr',
    (exists pre mid post, query = pre ++ m1 ++ mid ++ m2 ++ post)
    /\ Regex.findall Regex.number_pattern (Text.lower (Text.strip query))
       = [m1; m2]
    /\ PyFloat.of_string m1 = Some f1
    /\ PyFloat.of_string m2 = Some f2
    /\ add client f1 f2 tr = (Ok r, tr')
    /\ process query client tr = (Ok (shown float_repr r), tr').
Proof.
  intros H.
  destruct (process_query_run query client tr) as (fs & Hfs & Hrun).
  rewrite H in Hfs.
  inversion Hfs as [|? f1 ? fs1 Hf1 Hfs1]; subst.
  inversion Hfs1 as [|? f2 ? fs2 Hf2 Hfs2]; subst.
  inversion Hfs2; subst.
  destruct Hrun as (r & tr' & Hadd & Hp).
  exists f1, f2, r, tr'.
  repeat split; eauto using two_matches_in_order.
  now rewrite findall_normalised.
Qed.

(** C4: with no match [process_query] answers "No numbers found", with
    one match "Only one number found", with more than two "More than two
    numbers found"; in each case nothing else happens.  The three texts
    of the specification give these three answers. *)
Theorem process_query_wrong_count query client tr :
  let n := List.length (Regex.findall Regex.number_pattern query) in
  (n = 0 -> process query client tr = (Ok msg_no_numbers, tr))
  /\ (n = 1 -> process query client tr = (Ok msg_one_number, tr))
  /\ (2 < n -> process query client tr = (Ok msg_too_many, tr))
  /\ process "no digits here" client tr = (Ok msg_no_numbers, tr)
  /\ process "only 5 here" client tr = (Ok msg_one_number, tr)
  /\ process "5, 6, and 7" client tr = (Ok msg_too_many, tr).
Proof.
  assert (Hgen : forall q,
    let n := List.length (Regex.findall Regex.number_pattern q) in
    (n = 0 -> process q client tr = (Ok msg_no_numbers, tr))
    /\ (n = 1 -> process q client tr = (Ok msg_one_number, tr))
    /\ (2 < n -> process q client tr = (Ok msg_too_many, tr))).
  { intros q n.
    destruct (process_query_run q client tr) as (fs & Hfs & Hrun).
    apply Forall2_length in Hfs. fold n in Hfs.
    destruct fs as [|f1 [|f2 [|f3 fs]]]; simpl in Hfs;
      repeat split; intros Hn; first [exact Hrun | lia]. }
  destruct (Hgen query) as (H0 & H1 & H3).
  refine (conj H0 (conj H1 (conj H3 (conj _ (conj _ _))))).
  - now apply (Hgen "no digits here").
  - now apply (Hgen "only 5 here").
  - apply (Hgen "5, 6, and 7"). vm_compute. lia.
Qed.

(** C10: every text the number pattern matches is read by [float], so
    the conversion in [process_query] never raises and the "invalid
    number format" answer is never given. *)
Theorem invalid_number_format_unreachable :
  (forall s,
      Forall (fun m => exists f, PyFloat.of_string m = Some f)
        (Regex.findall Regex.number_pattern s))
  /\ (forall s tr, exists fs,
        map_eff (py_float_of_str py_repr)
          (Regex.findall Regex.number_pattern s) tr = (Ok fs, tr))
  /\ (forall query client tr,
        fst (process query client tr) <> Ok msg_invalid_number).
Proof.
  split; [|split].
  - intros s. apply Forall_forall. intros m Hm.
    apply float_reads_number_text. exact (findall_number_texts s m Hm).
  - intros s tr.
    destruct (map_eff_floats _ tr (findall_number_texts s)) as (fs & E & _).
    now exists fs.
  - intros query client tr.
    destruct (process_query_run query client tr) as (fs & _ & Hrun).
    destruct fs as [|f1 [|f2 [|f3 fs]]]; try (rewrite Hrun; discriminate).
    destruct Hrun as (r & tr' & Hadd & ->).
    pose proof (add_numbers_messages client f1 f2 tr r tr' Hadd) as Hm.
    unfold not_invalid_number in Hm.
    unfold shown. cbn [fst]. destruct (success r); [discriminate|].
    intros E. injection E as E. rewrite E in Hm. discriminate.
Qed.

End ProcessQuery.

(* ===================================================================== *)
(** * The request [add_numbers] sends                                     *)
(* ===================================================================== *)

Lemma extends_ret {A} (a : A) : extends (ret a).
Proof. intros tr. exists []. simpl. now rewrite app_nil_r. Qed.

Lemma extends_lift {A} (o : outcome A) : extends (lift o).
Proof. intros tr. exists []. simpl. now rewrite app_nil_r. Qed.

Lemma extends_emit (ev : event) : extends (emit ev).
Proof. intros tr. now exists [ev]. Qed.

Lemma extends_bind {A B} (m : eff A) (k : A -> eff B) :
  extends m -> (forall a, extends (k a)) -> extends (bind m k).
Proof.
  intros Hm Hk tr. unfold bind.
  destruct (Hm tr) as [more1 E1].
  destruct (m tr) as [[a|e] tr1]; simpl in E1; subst tr1.
  - destruct (Hk a (tr ++ more1)%list) as [more2 E2].
    exists (more1 ++ more2)%list. now rewrite E2, app_assoc.
  - now exists more1.
Qed.

Lemma extends_try {A} (body : eff A) hs :
  extends body ->
  (forall e h, select e hs = Some h -> extends (h e)) ->
  extends (try_except body hs).
Proof.
  intros Hb Hh tr. unfold try_except.
  destruct (Hb tr) as [more1 E1].
  destruct (body tr) as [[a|e] tr1]; simpl in E1; subst tr1.
  - now exists more1.
  - destruct (select e hs) as [h|] eqn:Es; [|now exists more1].
    destruct (Hh e h Es (tr ++ more1)%list) as [more2 E2].
    exists (more1 ++ more2)%list. now rewrite E2, app_assoc.
Qed.

Ltac extends_step :=
  first
    [ apply extends_ret
    | apply extends_lift
    | apply extends_emit
    | apply extends_bind; [|intros ?]
    | match goal with
      | |- extends (if ?b then _ else _) => destruct b
      | |- extends (match ?x with _ => _ end) => destruct x
      end ].

Section Requests.

Variable float_repr : spec_float -> string.
Variable py_repr : pyval -> string.
Variable requests_post : request -> outcome response.

Let add := add_numbers float_repr py_repr requests_post.

(** A configured client sends one request: to the stored base URL
    followed by the API path, with the two operands as [num1] and
    [num2]. *)
Lemma read_response_extends (resp : response) :
  extends (read_response float_repr py_repr resp).
Proof.
  unfold read_response, log. repeat extends_step.
  apply extends_try; [repeat extends_step|].
  intros e h Hs. simpl in Hs.
  destruct (subclass (exn_class_of e) JSONDecodeError); [|discriminate].
  injection Hs as <-. repeat extends_step.
Qed.

Lemma add_handlers_extend e h :
  select e add_handlers = Some h -> extends (h e).
Proof.
  unfold add_handlers, log. intros Hs. simpl in Hs.
  destruct (subclass (exn_class_of e) RequestException).
  - injection Hs as <-. repeat extends_step.
  - rewrite subclass_Exception in Hs. injection Hs as <-.
    repeat extends_step.
Qed.

(** A configured client sends one request: to the stored base URL
    followed by the API path, with the two operands as [num1] and
    [num2]. *)
Lemma add_numbers_posts self num1 num2 tr :
  configured self = true ->
  exists more,
    snd (add self num1 num2 tr)
    = ((tr ++ [EvLog INFO (LogMakingRequest (instance_url self ++ api_path));
               EvLog INFO (LogPayload (req_json (add_request self num1 num2)));
               EvPost (add_request self num1 num2)])
       ++ more)%list.
Proof.
  intros Hconf.
  assert (Hk : extends
            (try_except
               (x <- lift (requests_post (add_request self num1 num2)) ;;
                read_response float_repr py_repr x)
               add_handlers)).
  { apply extends_try; [|apply add_handlers_extend].
    apply extends_bind; [apply extends_lift|].
    apply read_response_extends. }
  destruct (Hk (((tr ++ [EvLog INFO
                           (LogMakingRequest (instance_url self ++ api_path))])
                 ++ [EvLog INFO
                       (LogPayload (req_json (add_request self num1 num2)))])
                ++ [EvPost (add_request self num1 num2)])%list)
    as [more Hmore].
  exists more.
  match goal with |- _ = ((tr ++ ?evs) ++ more)%list =>
    replace (tr ++ evs)%list
      with (((tr ++ [EvLog INFO
                       (LogMakingRequest (instance_url self ++ api_path))])
             ++ [EvLog INFO
                   (LogPayload (req_json (add_request self num1 num2)))])
            ++ [EvPost (add_request self num1 num2)])%list
      by (now rewrite <- !app_assoc)
  end.
  rewrite <- Hmore. unfold add, add_numbers. rewrite Hconf.
  reflexivity.
Qed.

End Requests.

(* ===================================================================== *)
(** * Concrete runs                                                       *)
(* ===================================================================== *)

Lemma rstrip_by_no_trailing (p : ascii -> bool) (s : string) :
  Text.ends_with_char p (Text.rstrip_by p s) = false.
Proof.
  induction s as [|c s IH]; [reflexivity|].
  cbn [Text.rstrip_by].
  destruct (Text.rstrip_by p s) as [|d r] eqn:E; cbn [Text.is_empty andb].
  - destruct (p c) eqn:Hc; [reflexivity | exact Hc].
  - exact IH.
Qed.

(** The constructor stores a base URL without trailing slashes. *)
Lemma init_strips_trailing_slashes getenv tr :
  exists self tr',
    ServiceNowClient_init getenv tr = (Ok self, tr')
    /\ Text.ends_with_char (Ascii.eqb "/") (instance_url self) = false.
Proof.
  unfold ServiceNowClient_init.
  match goal with |- context [negb (configured ?c)] =>
    destruct (negb (configured c)); eexists c, _; (split; [reflexivity|])
  end; apply rstrip_by_no_trailing.
Qed.

(** C7: the constructor strips the trailing slash of the base URL it
    reads from the environment; the form of [main] stores the URL as
    typed, and [add_numbers] prepends it to the API path as stored.  The
    URL "https://dev341352.service-now.com/" typed into the form is
    requested with two slashes before [api]. *)
Theorem form_url_keeps_trailing_slash :
  let typed := "https://dev341352.service-now.com/" in
  let body := PDict [("result", PDict [("result", PInt 20)])] in
  let run :=
    main sample_float_repr sample_py_repr (answering 200 body)
      sample_client typed (Some "admin") (Some "secret")
      "What is the sum of 8 and 12?" true [] in
  fst (ServiceNowClient_init (sample_env typed "admin" "secret") [])
  = Ok sample_client
  /\ fst run = Ok (mkClient typed (Some "admin") (Some "secret"),
                   Some "Result: 20.0")
  /\ exists req,
       In (EvPost req) (snd run)
       /\ req_url req
          = "https://dev341352.service-now.com//api/1756572/addition_of_two_numbers/add"
       /\ req_json req
          = PDict [("num1", PFloat (PyFloat.nearest 8));
                   ("num2", PFloat (PyFloat.nearest 12))].
Proof.
  cbv zeta. split; [reflexivity|]. split; [reflexivity|].
  eexists. split; [|split].
  - vm_compute. right. right. left. reflexivity.
  - reflexivity.
  - reflexivity.
Qed.

(** The same query after the URL came from the environment. *)
Example environment_url_is_stripped :
  exists req,
    In (EvPost req)
      (snd (main sample_float_repr sample_py_repr
              (answering 200 (PDict [("result", PDict [("result", PInt 20)])]))
              sample_client (instance_url sample_client)
              (Some "admin") (Some "secret")
              "What is the sum of 8 and 12?" true []))
    /\ req_url req
       = "https://dev341352.service-now.com/api/1756572/addition_of_two_numbers/add".
Proof.
  eexists. split; [vm_compute; right; right; left; reflexivity|].
  reflexivity.
Qed.

(** C2 as stated fails: in the 200 response with the JSON body
    [{"result":{"result":N}}], [N] the integer [2^1024], the nested
    [result] holds a number, yet [add_numbers] does not succeed: [float]
    raises [OverflowError] on [N], and the last [except] clause answers
    "Unexpected error: ...". *)
Lemma huge_integer_is_not_coerced :
  let body := PDict [("result", PDict [("result", PInt (2 ^ 1024))])] in
  let r := fst (add_numbers sample_float_repr sample_py_repr
                  (answering 200 body) sample_client
                  (PyFloat.nearest 8) (PyFloat.nearest 12) []) in
  nested_result body = Some (PInt (2 ^ 1024))
  /\ r = Ok (mkResponse false
               "Unexpected error: int too large to convert to float" None)
  /\ forall msg f, r <> Ok (mkResponse true msg (Some f)).
Proof.
  cbv zeta. split; [reflexivity|].
  assert (E : fst (add_numbers sample_float_repr sample_py_repr
                     (answering 200
                        (PDict [("result",
                                 PDict [("result", PInt (2 ^ 1024))])]))
                     sample_client (PyFloat.nearest 8) (PyFloat.nearest 12)
                     [])
              = Ok (mkResponse false
                      "Unexpected error: int too large to convert to float"
                      None))
    by (vm_compute; reflexivity).
  split; [exact E|]. intros msg f. rewrite E. discriminate.
Qed.

(** Further 200 responses outside the amended statement: a boolean
    passes the [isinstance] test, and a body that is not an object makes
    the key test or the indexing raise. *)
Example boolean_result_is_accepted :
  fst (add_numbers sample_float_repr sample_py_repr
         (answering 200 (PDict [("result", PDict [("result", PBool true)])]))
         sample_client (PyFloat.nearest 8) (PyFloat.nearest 12) [])
  = Ok (mkResponse true "Addition successful" (Some (PyFloat.nearest 1))).
Proof. reflexivity. Qed.

Example null_body_is_unexpected_error :
  fst (add_numbers sample_float_repr sample_py_repr
         (answering 200 PNone) sample_client
         (PyFloat.nearest 8) (PyFloat.nearest 12) [])
  = Ok (mkResponse false
          "Unexpected error: argument of type 'NoneType' is not iterable"
          None).
Proof. reflexivity. Qed.

Example string_body_is_unexpected_error :
  fst (add_numbers sample_float_repr sample_py_repr
         (answering 200 (PStr "no result today"))
         sample_client (PyFloat.nearest 8) (PyFloat.nearest 12) [])
  = Ok (mkResponse false
          "Unexpected error: string indices must be integers, not 'str'"
          None).
Proof. vm_compute. reflexivity. Qed.

Example missing_inner_key :
  fst (add_numbers sample_float_repr sample_py_repr
         (answering 200 (PDict [("result", PDict [])]))
         sample_client (PyFloat.nearest 8) (PyFloat.nearest 12) [])
  = Ok (mkResponse false "Invalid response format from API" None).
Proof. reflexivity. Qed.

(** C5 as stated fails: a 500 response with the JSON body
    [{"error": "boom"}] has no [error.message], yet the message is not
    built from "Unknown error": [.get] on the string raises
    [AttributeError], and the last [except] clause reports
    "Unexpected error: ...". *)
Lemma string_error_is_unexpected_error :
  let body := PDict [("error", PStr "boom")] in
  let r := fst (add_numbers sample_float_repr sample_py_repr
                  (answering 500 body) sample_client
                  (PyFloat.nearest 8) (PyFloat.nearest 12) []) in
  r = Ok (mkResponse false
            "Unexpected error: 'str' object has no attribute 'get'" None)
  /\ r <> Ok (mkResponse false "API Error: Unknown error" None)
  /\ r <> Ok (mkResponse false "API Error: boom" None).
Proof.
  cbv zeta. split; [reflexivity|]. split; vm_compute; discriminate.
Qed.

Example array_body_is_unexpected_error :
  fst (add_numbers sample_float_repr sample_py_repr
         (answering 503 (PList [])) sample_client
         (PyFloat.nearest 8) (PyFloat.nearest 12) [])
  = Ok (mkResponse false
          "Unexpected error: 'list' object has no attribute 'get'" None).
Proof. reflexivity. Qed.

Example end_to_end_sum :
  fst (process_query sample_float_repr sample_py_repr
         (answering 200 (PDict [("result", PDict [("result", PInt 20)])]))
         "What is the sum of 8 and 12?" sample_client [])
  = Ok "Result: 20.0".
Proof. reflexivity. Qed.

Example findall_sum_query :
  Regex.findall Regex.number_pattern "what is the sum of 8 and 12?"
  = ["8"; "12"].
Proof. reflexivity. Qed.

Example findall_signs_and_fractions :
  Regex.findall Regex.number_pattern "add -3.5 to +.25, 7. and 1.2.3-4"
  = ["-3.5"; "+.25"; "7"; "1.2"; ".3"; "-4"].
Proof. reflexivity. Qed.

Example float_of_decimal_texts :
  PyFloat.of_string "0.1" = Some (S754_finite false 7205759403792794 (-56))
  /\ PyFloat.of_string " -12.5e-1 "
     = Some (S754_finite true 5629499534213120 (-52))
  /\ PyFloat.of_string "1_000" = Some (PyFloat.nearest 1000)
  /\ PyFloat.of_string "1e400" = Some (S754_infinity false)
  /\ PyFloat.of_string "-Infinity" = Some (S754_infinity true)
  /\ PyFloat.of_string "5." = Some (PyFloat.nearest 5)
  /\ PyFloat.of_string "." = None
  /\ PyFloat.of_string "1e" = None
  /\ PyFloat.of_string "1__0" = None
  /\ PyFloat.of_string "12abc" = None.
Proof. vm_compute. repeat split. Qed.

(* ===================================================================== *)
(** * The theorems at concrete inputs                                     *)
(* ===================================================================== *)

Lemma process_query_two_numbers_witness :
  Regex.findall Regex.number_pattern "What is the sum of 8 and 12?"
  = ["8"; "12"]
  /\ exists f1 f2 r tr',
       (exists pre mid post,
          "What is the sum of 8 and 12?" = pre ++ "8" ++ mid ++ "12" ++ post)
       /\ Regex.findall Regex.number_pattern
            (Text.lower (Text.strip "What is the sum of 8 and 12?"))
          = ["8"; "12"]
       /\ PyFloat.of_string "8" = Some f1
       /\ PyFloat.of_string "12" = Some f2
       /\ add_numbers sample_float_repr sample_py_repr
            (answering 200 (PDict [("result", PDict [("result", PInt 20)])]))
            sample_client f1 f2 [] = (Ok r, tr')
       /\ process_query sample_float_repr sample_py_repr
            (answering 200 (PDict [("result", PDict [("result", PInt 20)])]))
            "What is the sum of 8 and 12?" sample_client []
          = (Ok (shown sample_float_repr r), tr').
Proof.
  split; [reflexivity|].
  apply (process_query_two_numbers sample_float_repr sample_py_repr
           (answering 200 (PDict [("result", PDict [("result", PInt 20)])]))
           "What is the sum of 8 and 12?" sample_client [] "8" "12").
  reflexivity.
Defined.

Lemma add_numbers_ok_response_witness :
  let d := [("result", PDict [("result", PInt 42)])] in
  let net := answering 200 (PDict d) in
  let r := fst (add_numbers sample_float_repr sample_py_repr net
                  sample_client (PyFloat.nearest 8) (PyFloat.nearest 12) []) in
  configured sample_client = true
  /\ status_code (Response 200 [] "" (Ok (PDict d))) = 200%Z
  /\ (forall v f,
        nested_result (PDict d) = Some v -> json_number v = Some f ->
        r = Ok (mkResponse true "Addition successful" (Some f)))
  /\ (nested_result (PDict d) = None
      \/ (exists v, nested_result (PDict d) = Some v
                    /\ not_a_number v = true) ->
      r = Ok (mkResponse false "Invalid response format from API" None))
  /\ (forall z,
        nested_result (PDict d) = Some (PInt z) -> PyFloat.of_int z = None ->
        r = Ok (mkResponse false
                  "Unexpected error: int too large to convert to float" None))
  /\ (d = [("result", PDict [("result", PInt 42)])] ->
      r = Ok (mkResponse true "Addition successful"
                (Some (S754_finite false (42 * 2 ^ 47) (-47))))).
Proof.
  cbv zeta. split; [reflexivity|]. split; [reflexivity|].
  apply (add_numbers_ok_response sample_float_repr sample_py_repr
           (answering 200 (PDict [("result", PDict [("result", PInt 42)])]))
           sample_client (PyFloat.nearest 8) (PyFloat.nearest 12) []
           (Response 200 [] "" (Ok (PDict [("result",
                                            PDict [("result", PInt 42)])])))
           [("result", PDict [("result", PInt 42)])]);
    reflexivity.
Defined.

Lemma add_numbers_unconfigured_witness :
  let self := mkClient "https://dev341352.service-now.com" (Some "admin")
                (Some "") in
  password self = Some ""
  /\ add_numbers sample_float_repr sample_py_repr
       (failing (Exn ConnectionError "connection refused"))
       self (PyFloat.nearest 8) (PyFloat.nearest 12) []
     = (Ok (mkResponse false "ServiceNow credentials not configured" None),
        [])
  /\ Text.contains "credentials not configured"
       "ServiceNow credentials not configured" = true.
Proof.
  cbv zeta. split; [reflexivity|].
  apply (add_numbers_unconfigured sample_float_repr sample_py_repr
           (failing (Exn ConnectionError "connection refused"))
           (mkClient "https://dev341352.service-now.com" (Some "admin")
              (Some ""))
           (PyFloat.nearest 8) (PyFloat.nearest 12) []).
  right. right. right. reflexivity.
Defined.

Lemma process_query_wrong_count_witness :
  List.length (Regex.findall Regex.number_pattern "Add 1, 2 and 3") = 3
  /\ process_query sample_float_repr sample_py_repr
       (failing (Exn Timeout "timed out")) "Add 1, 2 and 3" sample_client []
     = (Ok msg_too_many, []).
Proof.
  split; [reflexivity|].
  refine (proj1 (proj2 (proj2
            (process_query_wrong_count sample_float_repr sample_py_repr
               (failing (Exn Timeout "timed out")) "Add 1, 2 and 3"
               sample_client []))) _).
  vm_compute. apply le_n.
Defined.

Lemma add_numbers_error_response_witness :
  let body := PDict [("error", PDict [("message", PStr "boom")])] in
  let r := fst (add_numbers sample_float_repr sample_py_repr
                  (answering 500 body) sample_client
                  (PyFloat.nearest 8) (PyFloat.nearest 12) []) in
  configured sample_client = true
  /\ 500%Z <> 200%Z
  /\ (exists msg, r = Ok (mkResponse false msg None))
  /\ (forall d err,
        body = PDict d -> error_object d = Some err ->
        r = Ok (mkResponse false
                  ("API Error: "
                   ++ py_str sample_float_repr sample_py_repr
                        (match lookup "message" err with
                         | Some v => v
                         | None => PStr "Unknown error"
                         end))
                  None))
  /\ (body = PDict [("error", PDict [("message", PStr "boom")])] ->
      r = Ok (mkResponse false "API Error: boom" None)).
Proof.
  cbv zeta. split; [reflexivity|]. split; [discriminate|].
  apply (add_numbers_error_response sample_float_repr sample_py_repr
           (answering 500 (PDict [("error", PDict [("message", PStr "boom")])]))
           sample_client (PyFloat.nearest 8) (PyFloat.nearest 12) []
           (Response 500 [] ""
              (Ok (PDict [("error", PDict [("message", PStr "boom")])])))
           (PDict [("error", PDict [("message", PStr "boom")])]));
    first [reflexivity | discriminate].
Defined.

Lemma add_numbers_never_raises_witness :
  let e := Exn Timeout "read timed out" in
  fst (add_numbers sample_float_repr sample_py_repr (failing e)
         sample_client (PyFloat.nearest 8) (PyFloat.nearest 12) [])
  = Ok (mkResponse false "Request failed: read timed out" None).
Proof.
  cbv zeta.
  exact (proj1 (proj2
           (add_numbers_never_raises sample_float_repr sample_py_repr
              (failing (Exn Timeout "read timed out"))
              sample_client (PyFloat.nearest 8) (PyFloat.nearest 12) []))
           (Exn Timeout "read timed out") eq_refl eq_refl).
Defined.

Lemma add_numbers_invalid_json_witness :
  let e := Exn RequestsJSONDecodeError "Expecting value: line 1 column 1" in
  let resp := Response 502 [] "<html>Bad Gateway</html>" (Raise e) in
  configured sample_client = true
  /\ resp_json resp = Raise e
  /\ subclass (exn_class_of e) JSONDecodeError = true
  /\ fst (add_numbers sample_float_repr sample_py_repr (fun _ => Ok resp)
            sample_client (PyFloat.nearest 8) (PyFloat.nearest 12) [])
     = Ok (mkResponse false "Invalid JSON response from server" None).
Proof.
  cbv zeta. split; [reflexivity|]. split; [reflexivity|].
  split; [reflexivity|].
  apply (add_numbers_invalid_json sample_float_repr sample_py_repr
           (fun _ => Ok (Response 502 [] "<html>Bad Gateway</html>"
                           (Raise (Exn RequestsJSONDecodeError
                                     "Expecting value: line 1 column 1"))))
           sample_client (PyFloat.nearest 8) (PyFloat.nearest 12) []
           (Response 502 [] "<html>Bad Gateway</html>"
              (Raise (Exn RequestsJSONDecodeError
                        "Expecting value: line 1 column 1")))
           (Exn RequestsJSONDecodeError "Expecting value: line 1 column 1"));
    reflexivity.
Defined.

(* ===================================================================== *)
(** * Further rules for [eff]: uniform and quiet computations             *)
(* ===================================================================== *)

Lemma requests_in_app (a b : list event) :
  requests_in (a ++ b) = (requests_in a ++ requests_in b)%list.
Proof.
  induction a as [|[lvl r|req] a IH]; simpl; [reflexivity | exact IH|].
  now rewrite IH.
Qed.

Lemma logs_in_app (a b : list event) :
  logs_in (a ++ b) = (logs_in a ++ logs_in b)%list.
Proof.
  induction a as [|[lvl r|req] a IH]; simpl; [reflexivity | | exact IH].
  now rewrite IH.
Qed.

Lemma uniform_ret {A} (a : A) : uniform (ret a).
Proof. intros tr. unfold ret. simpl. now rewrite app_nil_r. Qed.

Lemma uniform_lift {A} (o : outcome A) : uniform (lift o).
Proof. intros tr. unfold lift. simpl. now rewrite app_nil_r. Qed.

Lemma uniform_emit (ev : event) : uniform (emit ev).
Proof. intros tr. reflexivity. Qed.

Lemma uniform_bind {A B} (m : eff A) (k : A -> eff B) :
  uniform m -> (forall a, uniform (k a)) -> uniform (bind m k).
Proof.
  intros Hm Hk tr. unfold bind. rewrite (Hm tr).
  destruct (m []) as [[a|e] s]; cbn [fst snd]; [|reflexivity].
  rewrite (Hk a (tr ++ s)%list), (Hk a s). cbn [fst snd].
  now rewrite app_assoc.
Qed.

Lemma uniform_try {A} (body : eff A) hs :
  uniform body ->
  (forall e h, select e hs = Some h -> uniform (h e)) ->
  uniform (try_except body hs).
Proof.
  intros Hb Hh tr. unfold try_except. rewrite (Hb tr).
  destruct (body []) as [[a|e] s]; cbn [fst snd]; [reflexivity|].
  destruct (select e hs) as [h|] eqn:Es; [|reflexivity].
  rewrite (Hh e h Es (tr ++ s)%list), (Hh e h Es s). cbn [fst snd].
  now rewrite app_assoc.
Qed.

Lemma quiet_ret {A} (a : A) : quiet (ret a).
Proof. split; [apply uniform_ret | reflexivity]. Qed.

Lemma quiet_lift {A} (o : outcome A) : quiet (lift o).
Proof. split; [apply uniform_lift | reflexivity]. Qed.

Lemma quiet_log lvl r : quiet (log lvl r).
Proof. split; [apply uniform_emit | reflexivity]. Qed.

Lemma quiet_bind {A B} (m : eff A) (k : A -> eff B) :
  quiet m -> (forall a, quiet (k a)) -> quiet (bind m k).
Proof.
  intros [Hm Qm] Hk. split.
  - apply uniform_bind; [exact Hm | intros a; apply Hk].
  - unfold bind. destruct (m []) as [[a|e] s]; cbn [snd] in *; [|exact Qm].
    destruct (Hk a) as [Ha Qa]. rewrite (Ha s). cbn [snd].
    now rewrite requests_in_app, Qm, Qa.
Qed.

Lemma quiet_try {A} (body : eff A) hs :
  quiet body ->
  (forall e h, select e hs = Some h -> quiet (h e)) ->
  quiet (try_except body hs).
Proof.
  intros [Hb Qb] Hh. split.
  - apply uniform_try; [exact Hb | intros e h Hs; apply (Hh e h Hs)].
  - unfold try_except. destruct (body []) as [[a|e] s]; cbn [snd] in *;
      [exact Qb|].
    destruct (select e hs) as [h|] eqn:Es; [|exact Qb].
    destruct (Hh e h Es) as [Ha Qa]. rewrite (Ha s). cbn [snd].
    now rewrite requests_in_app, Qb, Qa.
Qed.

Ltac quiet_step :=
  first
    [ apply quiet_ret
    | apply quiet_lift
    | apply quiet_log
    | apply quiet_bind; [|intros ?]
    | match goal with
      | |- quiet (if ?b then _ else _) => destruct b
      | |- quiet (match ?x with _ => _ end) => destruct x
      end ].

(** The clause of [add_handlers] that catches [e]. *)
Ltac caught_by_handlers e :=
  unfold failure_message; cbn [select];
  destruct (subclass (exn_class_of e) RequestException);
  [reflexivity | rewrite subclass_Exception; reflexivity].

Section Quiet.

Variable float_repr : spec_float -> string.
Variable py_repr : pyval -> string.
Variable requests_post : request -> outcome response.

Let add := add_numbers float_repr py_repr requests_post.

Lemma unwrap_result_quiet (data : pyval) : quiet (unwrap_result data).
Proof. unfold unwrap_result. repeat quiet_step. Qed.

Lemma read_response_quiet (resp : response) :
  quiet (read_response float_repr py_repr resp).
Proof.
  unfold read_response. repeat quiet_step.
  apply quiet_try; [repeat quiet_step|].
  intros e h Hs. simpl in Hs.
  destruct (subclass (exn_class_of e) JSONDecodeError); [|discriminate].
  injection Hs as <-. repeat quiet_step.
Qed.

Lemma add_handlers_quiet e h :
  select e add_handlers = Some h -> quiet (h e).
Proof.
  unfold add_handlers. intros Hs. simpl in Hs.
  destruct (subclass (exn_class_of e) RequestException).
  - injection Hs as <-. repeat quiet_step.
  - rewrite subclass_Exception in Hs. injection Hs as <-.
    repeat quiet_step.
Qed.

Let after := after_post float_repr py_repr.

Lemma after_post_quiet (o : outcome response) : quiet (after o).
Proof.
  apply quiet_try; [|apply add_handlers_quiet].
  apply quiet_bind; [apply quiet_lift | apply read_response_quiet].
Qed.

(** A configured client logs the URL and the payload, sends the
    request, and goes on from the outcome. *)
Lemma add_numbers_after_send self num1 num2 tr :
  configured self = true ->
  add self num1 num2 tr
  = after (requests_post (add_request self num1 num2))
      (((tr ++ [EvLog INFO (LogMakingRequest (instance_url self ++ api_path))])
        ++ [EvLog INFO (LogPayload (req_json (add_request self num1 num2)))])
       ++ [EvPost (add_request self num1 num2)])%list.
Proof.
  intros Hconf. unfold add, add_numbers. rewrite Hconf. reflexivity.
Qed.




(** X2: the log records of [add_numbers] do not depend on the user name
    or the password: two configured clients with the same base URL whose
    requests the network answers alike write the same records. *)
Theorem add_numbers_logs_hide_credentials s1 s2 num1 num2 tr :
  instance_url s1 = instance_url s2 ->
  configured s1 = true ->
  configured s2 = true ->
  requests_post (add_request s1 num1 num2)
  = requests_post (add_request s2 num1 num2) ->
  logs_in (snd (add s1 num1 num2 tr)) = logs_in (snd (add s2 num1 num2 tr)).
Proof.
  intros Hurl H1 H2 Hnet.
  rewrite (add_numbers_after_send s1 num1 num2 tr H1).
  rewrite (add_numbers_after_send s2 num1 num2 tr H2).
  rewrite <- Hnet.
  destruct (after_post_quiet
              (requests_post (add_request s1 num1 num2))) as [Hu _].
  rewrite Hu. symmetry. rewrite Hu. cbn [snd].
  rewrite !logs_in_app. cbn [logs_in req_json add_request].
  now rewrite Hurl.
Qed.

(** What the response decides does not depend on the trace. *)
Lemma after_post_answer (o : outcome response) tr :
  fst (after o tr) = fst (after o []).
Proof. destruct (after_post_quiet o) as [Hu _]. now rewrite Hu. Qed.

Lemma unwrap_result_answer (data : pyval) tr :
  fst (unwrap_result data tr) = fst (unwrap_result data []).
Proof. destruct (unwrap_result_quiet data) as [Hu _]. now rewrite Hu. Qed.

(** The answer to a response, read off its status and its JSON. *)
Lemma after_post_response (resp : response) :
  fst (after (Ok resp) [])
  = match resp_json resp with
    | Raise e =>
        if subclass (exn_class_of e) JSONDecodeError
        then Ok (mkResponse false "Invalid JSON response from server" None)
        else Ok (mkResponse false (failure_message e) None)
    | Ok data =>
        if (status_code resp =? 200)%Z then
          match fst (unwrap_result data []) with
          | Ok (Some r) => Ok r
          | Ok None =>
              Ok (mkResponse false "Invalid response format from API" None)
          | Raise e => Ok (mkResponse false (failure_message e) None)
          end
        else
          match py_get data "error" (PDict []) with
          | Ok err =>
              match py_get err "message" (PStr "Unknown error") with
              | Ok v =>
                  Ok (mkResponse false
                        ("API Error: " ++ py_str float_repr py_repr v) None)
              | Raise e => Ok (mkResponse false (failure_message e) None)
              end
          | Raise e => Ok (mkResponse false (failure_message e) None)
          end
    end.
Proof.
  unfold after, after_post, read_response, add_handlers.
  eff_red.
  destruct (resp_json resp) as [data|e]; cbv beta iota.
  - destruct (status_code resp =? 200)%Z.
    + match goal with |- context [unwrap_result data ?t] =>
        rewrite <- (unwrap_result_answer data t);
        destruct (unwrap_result data t) as [[[r|]|e] tr1]
      end; try reflexivity.
      cbn [fst]. caught_by_handlers e.
    + destruct (py_get data "error" (PDict [])) as [err|e];
        [|caught_by_handlers e].
      destruct (py_get err "message" (PStr "Unknown error")) as [v|e];
        [reflexivity | caught_by_handlers e].
  - cbn [select].
    destruct (subclass (exn_class_of e) JSONDecodeError); [reflexivity|].
    caught_by_handlers e.
Qed.

(** X3: the answer of [add_numbers] to a response depends on its status
    code and its parsed JSON only: not on the headers or the raw text,
    and not on the operands, the credentials or the events so far. *)
Theorem add_numbers_answer_from_status_and_json
  s1 a1 b1 t1 r1 s2 a2 b2 t2 r2 :
  configured s1 = true ->
  configured s2 = true ->
  requests_post (add_request s1 a1 b1) = Ok r1 ->
  requests_post (add_request s2 a2 b2) = Ok r2 ->
  status_code r1 = status_code r2 ->
  resp_json r1 = resp_json r2 ->
  fst (add s1 a1 b1 t1) = fst (add s2 a2 b2 t2).
Proof.
  intros H1 H2 Hp1 Hp2 Hst Hjs.
  rewrite (add_numbers_after_send s1 a1 b1 t1 H1), Hp1.
  rewrite (add_numbers_after_send s2 a2 b2 t2 H2), Hp2.
  rewrite (after_post_answer (Ok r1)), (after_post_answer (Ok r2)).
  rewrite !after_post_response.
  now rewrite Hst, Hjs.
Qed.

Lemma after_post_raise (e : exn) :
  fst (after (Raise e) []) = Ok (mkResponse false (failure_message e) None).
Proof.
  unfold after, after_post, add_handlers. eff_red. caught_by_handlers e.
Qed.

Lemma unwrap_result_success (data : pyval) (r : AddNumbersResponse) :
  fst (unwrap_result data []) = Ok (Some r) ->
  exists d v f,
    data = PDict d
    /\ nested_result (PDict d) = Some v
    /\ is_int_or_float v = true
    /\ py_float v = Ok f
    /\ r = mkResponse true "Addition successful" (Some f).
Proof.
  destruct data as [| | | |s|l|d]; try discriminate.
  - unfold unwrap_result. eff_red. cbn [py_contains py_getitem].
    destruct (Text.contains "result" s); discriminate.
  - unfold unwrap_result. eff_red. cbn [py_contains py_getitem].
    destruct (existsb (is_str "result") l); discriminate.
  - rewrite unwrap_result_object.
    destruct (nested_result (PDict d)) as [v|] eqn:Hn; [|discriminate].
    destruct (is_int_or_float v) eqn:Hv; [|discriminate].
    destruct (py_float v) as [f|e] eqn:Hf; [|discriminate].
    intros E. injection E as <-. now exists d, v, f.
Qed.

(** X4: [add_numbers] reports success only for a configured client whose
    request was answered with status 200 and a JSON object whose
    [result.result] is an [int], [float] or [bool] that [float] converts;
    the response then carries that float and "Addition successful". *)
Theorem add_numbers_success_only_if self num1 num2 tr r :
  fst (add self num1 num2 tr) = Ok r ->
  success r = true ->
  configured self = true
  /\ exists resp d v f,
       requests_post (add_request self num1 num2) = Ok resp
       /\ status_code resp = 200%Z
       /\ resp_json resp = Ok (PDict d)
       /\ nested_result (PDict d) = Some v
       /\ is_int_or_float v = true
       /\ py_float v = Ok f
       /\ r = mkResponse true "Addition successful" (Some f).
Proof.
  intros Hr Hs.
  destruct (configured self) eqn:Hconf.
  2:{ unfold add, add_numbers in Hr. rewrite Hconf in Hr.
      injection Hr as <-. discriminate. }
  split; [reflexivity|].
  rewrite (add_numbers_after_send self num1 num2 tr Hconf) in Hr.
  rewrite after_post_answer in Hr.
  destruct (requests_post (add_request self num1 num2)) as [resp|e].
  2:{ rewrite after_post_raise in Hr. injection Hr as <-. discriminate. }
  rewrite after_post_response in Hr.
  destruct (resp_json resp) as [data|e] eqn:Hjson.
  2:{ destruct (subclass (exn_class_of e) JSONDecodeError);
        injection Hr as <-; discriminate. }
  destruct (status_code resp =? 200)%Z eqn:Hst.
  2:{ destruct (py_get data "error" (PDict [])) as [err|e];
        [|injection Hr as <-; discriminate].
      destruct (py_get err "message" (PStr "Unknown error"));
        injection Hr as <-; discriminate. }
  apply Z.eqb_eq in Hst.
  destruct (fst (unwrap_result data [])) as [[r'|]|e] eqn:Hu;
    try (injection Hr as <-; discriminate).
  injection Hr as ->.
  destruct (unwrap_result_success data r Hu) as (d & v & f & -> & H).
  now exists resp, d, v, f.
Qed.

Lemma unwrap_result_message (data : pyval) :
  ensures (unwrap_result data)
    (fun early => match early with
                  | Some r => outcome_message (success r) (message r)
                  | None => True
                  end).
Proof.
  unfold unwrap_result. repeat ensures_step; first [exact I | constructor].
Qed.

Lemma add_numbers_message_forms self num1 num2 :
  ensures (add self num1 num2)
    (fun r => outcome_message (success r) (message r)).
Proof.
  unfold add, add_numbers, read_response, add_handlers.
  destruct (negb (configured self)); [apply ensures_ret; constructor|].
  apply ensures_try.
  - do 6 (apply ensures_bind; intros ?).
    apply ensures_bind_with
      with (P := fun p => match p with
                          | inl r => outcome_message (success r) (message r)
                          | inr _ => True
                          end).
    + apply ensures_try.
      * repeat ensures_step; exact I.
      * intros e h Hs. simpl in Hs.
        destruct (subclass (exn_class_of e) JSONDecodeError);
          [|discriminate].
        injection Hs as <-. repeat ensures_step; constructor.
    + intros [r|data] Hp; [now apply ensures_ret|].
      destruct (status_code a1 =? 200)%Z.
      * apply ensures_bind_with with (1 := unwrap_result_message data).
        intros [r|] Hr; apply ensures_ret; [exact Hr | constructor].
      * repeat ensures_step; constructor.
  - intros e h Hs. simpl in Hs.
    destruct (subclass (exn_class_of e) RequestException).
    + injection Hs as <-. repeat ensures_step; constructor.
    + rewrite subclass_Exception in Hs. injection Hs as <-.
      repeat ensures_step; constructor.
Qed.

(** X5: every response of [add_numbers] carries one of seven messages:
    "Addition successful" with [success] true; with [success] false
    "ServiceNow credentials not configured", "Invalid JSON response from
    server", "Invalid response format from API", or a text after
    "API Error: ", "Request failed: " or "Unexpected error: ".  So the
    message alone tells whether the call succeeded. *)
Theorem add_numbers_message_tells_outcome self num1 num2 tr :
  exists r tr',
    add self num1 num2 tr = (Ok r, tr')
    /\ outcome_message (success r) (message r)
    /\ (success r = true <-> message r = "Addition successful").
Proof.
  destruct (add_numbers_total float_repr py_repr requests_post
              self num1 num2 tr) as (r & tr' & E).
  exists r, tr'. split; [exact E|].
  pose proof (add_numbers_message_forms self num1 num2 tr r tr' E) as Hm.
  split; [exact Hm|].
  inversion Hm as [Hb H|Hb H|Hb H|Hb H|x Hb H|x Hb H|x Hb H];
    split; intros Heq; try reflexivity;
    first [discriminate Heq | simpl in Heq; discriminate Heq].
Qed.

End Quiet.

(* ===================================================================== *)
(** * The constructor and the form                                        *)
(* ===================================================================== *)

Lemma is_empty_rstrip_by (p : ascii -> bool) (s : string) :
  Text.is_empty (Text.rstrip_by p s) = Text.all_chars p s.
Proof.
  induction s as [|c s IH]; [reflexivity|].
  cbn [Text.rstrip_by Text.all_chars]. rewrite <- IH.
  destruct (Text.is_empty (Text.rstrip_by p s)), (p c); reflexivity.
Qed.

(** X6: the constructor never raises; it stores the user name and the
    password as the environment gives them and the base URL without its
    trailing slashes.  The client is configured exactly when the URL has
    a character other than the slash and both credentials are set and
    non-empty; otherwise one warning is logged. *)
Theorem init_reads_environment getenv tr :
  let url := match getenv "SERVICENOW_INSTANCE_URL" with
             | Some v => v
             | None => ""
             end in
  let user := getenv "SERVICENOW_USERNAME" in
  let pass := getenv "SERVICENOW_PASSWORD" in
  let self := mkClient (Text.rstrip_slash url) user pass in
  ServiceNowClient_init getenv tr
  = (Ok self,
     if configured self then tr
     else (tr ++ [EvLog WARNING LogCredentialsNotConfigured])%list)
  /\ Text.ends_with_char (Ascii.eqb "/") (instance_url self) = false
  /\ (exists rest, url = instance_url self ++ rest
                   /\ Text.all_chars (Ascii.eqb "/") rest = true)
  /\ configured self
     = negb (Text.all_chars (Ascii.eqb "/") url)
       && truthy_opt user && truthy_opt pass.
Proof.
  cbv zeta. split; [|split; [|split]].
  - unfold ServiceNowClient_init.
    match goal with |- context [negb (configured ?c)] =>
      destruct (configured c); reflexivity
    end.
  - apply rstrip_by_no_trailing.
  - apply rstrip_by_split.
  - unfold configured, truthy, Text.rstrip_slash. cbn [forallb instance_url
      username password].
    rewrite is_empty_rstrip_by. now rewrite andb_true_r, andb_assoc.
Qed.

Lemma opt_eqb_eq (a b : option string) : opt_eqb a b = true <-> a = b.
Proof.
  destruct a as [x|], b as [y|]; simpl; try (split; congruence).
  rewrite String.eqb_eq. split; congruence.
Qed.

(** The sidebar's three conditional assignments are assignments. *)
Lemma update_credentials_assigns client url user pass :
  update_credentials client url user pass = mkClient url user pass.
Proof.
  unfold update_credentials. destruct client as [u0 n0 p0].
  cbn [instance_url username password].
  destruct (String.eqb_spec url u0) as [->|_]; cbn [negb];
    cbn [instance_url username password];
    (destruct (opt_eqb user n0) eqn:Eu;
     [apply opt_eqb_eq in Eu as -> |]); cbn [negb];
    cbn [instance_url username password];
    (destruct (opt_eqb pass p0) eqn:Ep;
     [apply opt_eqb_eq in Ep as -> |]); reflexivity.
Qed.

(** X7: after the sidebar of [main] the client holds the three values of
    the form, whatever it held before: writing a field back only when it
    differs is an assignment.  In particular the base URL is stored as
    typed, and two updates in a row keep the later values. *)
Theorem form_values_are_stored client url user pass :
  let client' := update_credentials client url user pass in
  instance_url client' = url
  /\ username client' = user
  /\ password client' = pass
  /\ (forall url2 user2 pass2,
        update_credentials client' url2 user2 pass2
        = update_credentials client url2 user2 pass2).
Proof.
  cbv zeta. rewrite update_credentials_assigns.
  repeat split. intros. now rewrite !update_credentials_assigns.
Qed.

(* ===================================================================== *)
(** * More on [process_query] and [main]                                  *)
(* ===================================================================== *)

(** X8: in every text, the texts the number pattern finds are signed
    decimals (an optional sign, digits, an optional point, at least one
    more digit), and they stand in the text in the order found, without
    overlap. *)
Theorem found_numbers_are_signed_decimals (s : string) :
  Forall number_text (Regex.findall Regex.number_pattern s)
  /\ scattered (Regex.findall Regex.number_pattern s) s.
Proof.
  split.
  - apply Forall_forall. intros m Hm. exact (findall_number_texts s m Hm).
  - apply findall_from_scattered.
Qed.

Section Coverage.

Variable float_repr : spec_float -> string.
Variable py_repr : pyval -> string.
Variable requests_post : request -> outcome response.

Let add := add_numbers float_repr py_repr requests_post.
Let process := process_query float_repr py_repr requests_post.

(** X9: [process_query] reads nothing of the query but its numbers: two
    queries in which the pattern finds the same texts give the same
    answer and the same events. *)
Theorem process_query_reads_numbers_only q1 q2 client tr :
  Regex.findall Regex.number_pattern q1
  = Regex.findall Regex.number_pattern q2 ->
  process q1 client tr = process q2 client tr.
Proof.
  intros H. unfold process, process_query. cbv zeta.
  now rewrite !findall_normalised, H.
Qed.

(** X10: [process_query] never raises, and its outer [except] clause
    never runs: the text it returns starts with "Result: " or with
    "Error: " and is never the "unexpected error occurred" text. *)
Theorem process_query_always_answers query client tr :
  exists text tr',
    process query client tr = (Ok text, tr')
    /\ (Text.starts_with "Result: " text = true
        \/ Text.starts_with "Error: " text = true)
    /\ text <> msg_unexpected.
Proof.
  destruct (process_query_run float_repr py_repr requests_post
              query client tr) as (fs & _ & Hrun).
  fold process in Hrun.
  destruct fs as [|f1 [|f2 [|f3 fs]]];
    try (eexists _, _; split; [exact Hrun|];
         split; [right; reflexivity | discriminate]).
  destruct Hrun as (r & tr' & Hadd & Hp).
  exists (shown float_repr r), tr'. split; [exact Hp|].
  pose proof (add_numbers_message_forms float_repr py_repr requests_post
                client f1 f2 tr r tr' Hadd) as Hm.
  unfold shown. destruct (success r).
  - split; [left; reflexivity | discriminate].
  - split; [right; reflexivity|].
    intros E. injection E as E.
    inversion Hm as [Hb H|Hb H|Hb H|Hb H|x Hb H|x Hb H|x Hb H];
      rewrite E in H; first [discriminate H | simpl in H; discriminate H].
Qed.


(** X12: end to end: when the query holds exactly two numbers, the
    credentials are non-empty, and the network answers the request with
    status 200 and a JSON object whose [result.result] is a number in
    float64 range, [process_query] returns "Result: " followed by the
    text of that number as a float. *)
Theorem process_query_displays_the_result
  query client tr m1 m2 resp d v f :
  Regex.findall Regex.number_pattern query = [m1; m2] ->
  configured client = true ->
  (forall req, requests_post req = Ok resp) ->
  status_code resp = 200%Z ->
  resp_json resp = Ok (PDict d) ->
  nested_result (PDict d) = Some v ->
  json_number v = Some f ->
  fst (process query client tr) = Ok ("Result: " ++ float_repr f).
Proof.
  intros Hq Hconf Hnet Hst Hjs Hv Hf.
  destruct (process_query_run float_repr py_repr requests_post
              query client tr) as (fs & Hfs & Hrun).
  rewrite Hq in Hfs.
  inversion Hfs as [|? f1 ? fs1 _ Hfs1]; subst.
  inversion Hfs1 as [|? f2 ? fs2 _ Hfs2]; subst.
  inversion Hfs2; subst.
  destruct Hrun as (r & tr' & Hadd & Hp). fold process in Hp.
  rewrite Hp. cbn [fst]. f_equal.
  apply (f_equal fst) in Hadd. cbn [fst] in Hadd.
  rewrite (add_numbers_after_send float_repr py_repr requests_post
             client f1 f2 tr Hconf) in Hadd.
  rewrite Hnet, after_post_answer, after_post_response in Hadd.
  rewrite Hjs, Hst in Hadd. cbn [Z.eqb Pos.eqb] in Hadd.
  rewrite unwrap_result_object, Hv in Hadd.
  destruct v; try discriminate; cbn in Hf, Hadd.
  - rewrite Hf in Hadd. now injection Hadd as <-.
  - injection Hf as ->. now injection Hadd as <-.
Qed.


End Coverage.

(* ===================================================================== *)
(** * The further theorems at concrete inputs                             *)
(* ===================================================================== *)

Lemma add_numbers_logs_hide_credentials_witness :
  let s1 := sample_client in
  let s2 := mkClient (instance_url sample_client) (Some "guest")
              (Some "hunter2") in
  let net := answering 401 (PDict [("error",
                                    PDict [("message", PStr "denied")])]) in
  configured s1 = true
  /\ configured s2 = true
  /\ logs_in (snd (add_numbers sample_float_repr sample_py_repr net
                     s1 (PyFloat.nearest 8) (PyFloat.nearest 12) []))
     = logs_in (snd (add_numbers sample_float_repr sample_py_repr net
                       s2 (PyFloat.nearest 8) (PyFloat.nearest 12) [])).
Proof.
  cbv zeta. split; [reflexivity|]. split; [reflexivity|].
  apply (add_numbers_logs_hide_credentials sample_float_repr sample_py_repr
           (answering 401 (PDict [("error",
                                   PDict [("message", PStr "denied")])]))
           sample_client
           (mkClient (instance_url sample_client) (Some "guest")
              (Some "hunter2"))
           (PyFloat.nearest 8) (PyFloat.nearest 12) []);
    reflexivity.
Defined.

Lemma add_numbers_answer_from_status_and_json_witness :
  let body := PDict [("result", PDict [("result", PInt 20)])] in
  let net := echoing 200 body in
  let s2 := mkClient "https://other.service-now.com" (Some "guest")
              (Some "hunter2") in
  net (add_request sample_client (PyFloat.nearest 8) (PyFloat.nearest 12))
  <> net (add_request s2 (PyFloat.nearest 1) (PyFloat.nearest 2))
  /\ fst (add_numbers sample_float_repr sample_py_repr net sample_client
            (PyFloat.nearest 8) (PyFloat.nearest 12) [])
     = fst (add_numbers sample_float_repr sample_py_repr net s2
              (PyFloat.nearest 1) (PyFloat.nearest 2)
              [EvLog WARNING LogCredentialsNotConfigured]).
Proof.
  cbv zeta. split; [vm_compute; discriminate|].
  apply (add_numbers_answer_from_status_and_json
           sample_float_repr sample_py_repr
           (echoing 200 (PDict [("result", PDict [("result", PInt 20)])]))
           sample_client (PyFloat.nearest 8) (PyFloat.nearest 12) []
           (Response 200
              [("X-Request-URL",
                req_url (add_request sample_client (PyFloat.nearest 8)
                           (PyFloat.nearest 12)))]
              (req_url (add_request sample_client (PyFloat.nearest 8)
                          (PyFloat.nearest 12)))
              (Ok (PDict [("result", PDict [("result", PInt 20)])])))
           (mkClient "https://other.service-now.com" (Some "guest")
              (Some "hunter2"))
           (PyFloat.nearest 1) (PyFloat.nearest 2)
           [EvLog WARNING LogCredentialsNotConfigured]
           (Response 200
              [("X-Request-URL",
                req_url (add_request
                           (mkClient "https://other.service-now.com"
                              (Some "guest") (Some "hunter2"))
                           (PyFloat.nearest 1) (PyFloat.nearest 2)))]
              (req_url (add_request
                          (mkClient "https://other.service-now.com"
                             (Some "guest") (Some "hunter2"))
                          (PyFloat.nearest 1) (PyFloat.nearest 2)))
              (Ok (PDict [("result", PDict [("result", PInt 20)])]))));
    reflexivity.
Defined.

Lemma add_numbers_success_only_if_witness :
  let body := PDict [("result", PDict [("result", PInt 20)])] in
  let r := mkResponse true "Addition successful"
             (Some (PyFloat.nearest 20)) in
  fst (add_numbers sample_float_repr sample_py_repr (answering 200 body)
         sample_client (PyFloat.nearest 8) (PyFloat.nearest 12) []) = Ok r
  /\ configured sample_client = true
  /\ exists resp d v f,
       answering 200 body
         (add_request sample_client (PyFloat.nearest 8) (PyFloat.nearest 12))
       = Ok resp
       /\ status_code resp = 200%Z
       /\ resp_json resp = Ok (PDict d)
       /\ nested_result (PDict d) = Some v
       /\ is_int_or_float v = true
       /\ py_float v = Ok f
       /\ r = mkResponse true "Addition successful" (Some f).
Proof.
  cbv zeta. split; [reflexivity|].
  apply (add_numbers_success_only_if sample_float_repr sample_py_repr
           (answering 200 (PDict [("result", PDict [("result", PInt 20)])]))
           sample_client (PyFloat.nearest 8) (PyFloat.nearest 12) []
           (mkResponse true "Addition successful"
              (Some (PyFloat.nearest 20))));
    reflexivity.
Defined.

Lemma process_query_reads_numbers_only_witness :
  Regex.findall Regex.number_pattern "Add 8 and 12"
  = Regex.findall Regex.number_pattern "What is 8 times 12?"
  /\ process_query sample_float_repr sample_py_repr
       (answering 200 (PDict [("result", PDict [("result", PInt 20)])]))
       "Add 8 and 12" sample_client []
     = process_query sample_float_repr sample_py_repr
         (answering 200 (PDict [("result", PDict [("result", PInt 20)])]))
         "What is 8 times 12?" sample_client [].
Proof.
  split; [reflexivity|].
  apply (process_query_reads_numbers_only sample_float_repr sample_py_repr
           (answering 200 (PDict [("result", PDict [("result", PInt 20)])]))
           "Add 8 and 12" "What is 8 times 12?" sample_client []).
  reflexivity.
Defined.

Lemma process_query_displays_the_result_witness :
  let body := [("result", PDict [("result", PInt 20)])] in
  Regex.findall Regex.number_pattern "What is the sum of 8 and 12?"
  = ["8"; "12"]
  /\ configured sample_client = true
  /\ nested_result (PDict body) = Some (PInt 20)
  /\ json_number (PInt 20) = Some (PyFloat.nearest 20)
  /\ fst (process_query sample_float_repr sample_py_repr
            (answering 200 (PDict body))
            "What is the sum of 8 and 12?" sample_client [])
     = Ok ("Result: " ++ sample_float_repr (PyFloat.nearest 20)).
Proof.
  cbv zeta. split; [reflexivity|]. split; [reflexivity|].
  split; [reflexivity|]. split; [reflexivity|].
  apply (process_query_displays_the_result sample_float_repr sample_py_repr
           (answering 200 (PDict [("result", PDict [("result", PInt 20)])]))
           "What is the sum of 8 and 12?" sample_client [] "8" "12"
           (Response 200 [] ""
              (Ok (PDict [("result", PDict [("result", PInt 20)])])))
           [("result", PDict [("result", PInt 20)])]
           (PInt 20) (PyFloat.nearest 20));
    first [reflexivity | intros; reflexivity].
Defined.
